(** * boofuzz/ifuzzable.py: the fuzzable element protocol

    A shallow embedding of [IFuzzable] and of the metaclass
    [DocStringInheritor] of [boofuzz/ifuzzable.py].

    Python objects live in a store: an element is a location holding its
    class and its instance dictionary, a [Mutation] is a location holding
    the dictionary of its [mutations] attribute, and the class attribute
    [IFuzzable.name_counter] is one integer shared by every element.
    Methods are computations in a state and exception monad over that
    store.  Methods that a concrete element class may override are looked
    up in a class table; a class that does not override one inherits the
    body written in [IFuzzable]. *)

From stdpp Require Import gmap strings pretty.

Open Scope string_scope.
Open Scope Z_scope.

(** ** Python values and exceptions *)

Inductive pyval : Type :=
| PyNone
| PyBool (b : bool)
| PyInt (z : Z)
| PyStr (s : string)
| PyBytes (bs : list Byte.byte).

(** [NoSuchObject] is not an exception of Python: it is what a method
    gives on a location that holds no object. *)
Inductive pyexn : Type :=
| AttributeError (attr : string)
| KeyError (key : string)
| TypeError
| NoSuchObject.

Inductive outcome (A : Type) : Type :=
| Returns (a : A)
| Raises (e : pyexn).
Arguments Returns {A} a.
Arguments Raises {A} e.

(** Truth value of an object, as [filter(None, ...)] and [if] test it. *)
Definition truthy (v : pyval) : bool :=
  match v with
  | PyNone => false
  | PyBool b => b
  | PyInt z => negb (z =? 0)
  | PyStr s => negb (String.eqb s "")
  | PyBytes bs => match bs with [] => false | _ => true end
  end.

(** [x is None] *)
Definition is_None (v : pyval) : bool :=
  match v with PyNone => true | _ => false end.

(** [sep.join(items)]: every item must be a [str]. *)
Fixpoint all_str (items : list pyval) : option (list string) :=
  match items with
  | [] => Some []
  | PyStr s :: rest =>
      match all_str rest with Some l => Some (s :: l) | None => None end
  | _ :: _ => None
  end.

Fixpoint concat_with (sep : string) (l : list string) : string :=
  match l with
  | [] => ""
  | [s] => s
  | s :: rest => s +:+ sep +:+ concat_with sep rest
  end.

Definition str_join (sep : string) (items : list pyval) : outcome pyval :=
  match all_str items with
  | Some l => Returns (PyStr (concat_with sep l))
  | None => Raises TypeError
  end.

(** ** The store *)

Definition loc := nat.

Record obj : Type := Obj {
  o_class : nat;                    (* type(self), an index in the class table *)
  o_dict : gmap string pyval        (* self.__dict__ *)
}.

Record World : Type := MkWorld {
  name_counter : Z;                         (* IFuzzable.name_counter *)
  objs : gmap loc obj;                      (* the elements *)
  mutation_objs : gmap loc (gmap string pyval)  (* Mutation objects: their .mutations *)
}.

(** ** The monad of method bodies *)

Definition M (A : Type) : Type := World → outcome A * World.

Definition ret {A} (a : A) : M A := λ w, (Returns a, w).
Definition raise {A} (e : pyexn) : M A := λ w, (Raises e, w).
Definition bind {A B} (c : M A) (k : A → M B) : M B := λ w,
  match c w with
  | (Returns a, w') => k a w'
  | (Raises e, w') => (Raises e, w')
  end.

Notation "x <- c ;; k" := (bind c (λ x, k))
  (at level 100, c at next level, right associativity).
Notation "c ;;; k" := (bind c (λ _, k))
  (at level 100, right associativity).

Definition lift {A} (o : outcome A) : M A := λ w, (o, w).

(** ** Attribute access *)

(** [self.<a>] for an instance attribute *)
Definition getattr (self : loc) (a : string) : M pyval := λ w,
  match objs w !! self with
  | Some o =>
      match o_dict o !! a with
      | Some v => (Returns v, w)
      | None => (Raises (AttributeError a), w)
      end
  | None => (Raises NoSuchObject, w)
  end.

(** [hasattr(self, a)] *)
Definition hasattr (self : loc) (a : string) : M bool := λ w,
  match objs w !! self with
  | Some o => (Returns (bool_decide (is_Some (o_dict o !! a))), w)
  | None => (Raises NoSuchObject, w)
  end.

(** [self.<a> = v] *)
Definition setattr (self : loc) (a : string) (v : pyval) : M unit := λ w,
  match objs w !! self with
  | Some o =>
      (Returns (),
       MkWorld (name_counter w)
               (<[self := Obj (o_class o) (<[a := v]> (o_dict o))]> (objs w))
               (mutation_objs w))
  | None => (Raises NoSuchObject, w)
  end.

(** [mutation.mutations] *)
Definition get_mutations (mutation : loc) : M (gmap string pyval) := λ w,
  match mutation_objs w !! mutation with
  | Some d => (Returns d, w)
  | None => (Raises NoSuchObject, w)
  end.

(** [d[k]] *)
Definition subscript (d : gmap string pyval) (k : string) : M pyval :=
  match d !! k with
  | Some v => ret v
  | None => raise (KeyError k)
  end.

(** [k in d]; a key that is not a [str] equals no [str] key. *)
Definition contains (d : gmap string pyval) (k : pyval) : bool :=
  match k with
  | PyStr s => bool_decide (is_Some (d !! s))
  | _ => false
  end.

(** [d[k]] for an arbitrary key object *)
Definition subscript_val (d : gmap string pyval) (k : pyval) : M pyval :=
  match k with
  | PyStr s => subscript d s
  | _ => raise TypeError
  end.

Definition get_name_counter : M Z := λ w, (Returns (name_counter w), w).
Definition set_name_counter (c : Z) : M unit := λ w,
  (Returns (), MkWorld c (objs w) (mutation_objs w)).

(** ** Methods of [IFuzzable]: the bodies written in the class *)

(** [fuzzable] (property) *)
Definition fuzzable (self : loc) : M pyval :=
  getattr self "_fuzzable".

(** [mutations] (abstract property): a docstring and a bare [return]. *)
Definition IFuzzable_mutations (self : loc) : M pyval :=
  ret PyNone.

(** [mutant_index] (property): a docstring and a bare [return]. *)
Definition IFuzzable_mutant_index (self : loc) : M pyval :=
  ret PyNone.

(** [original_value] (abstract property): a bare [return]. *)
Definition IFuzzable_original_value (self : loc) : M pyval :=
  ret PyNone.

(** [context_path] (property) and its setter *)
Definition context_path (self : loc) : M pyval :=
  getattr self "_context_path".

Definition set_context_path (self : loc) (x : pyval) : M unit :=
  setattr self "_context_path" x.

(** [mutate]: a docstring and a bare [return]. *)
Definition IFuzzable_mutate (self : loc) : M pyval :=
  ret PyNone.

(** [num_mutations] (abstract): a bare [return]. *)
Definition IFuzzable_num_mutations (self : loc) : M pyval :=
  ret PyNone.

(** [render] (abstract): a bare [return]. *)
Definition IFuzzable_render (self : loc) : M pyval :=
  ret PyNone.

(** [encode] *)
Definition IFuzzable_encode (self : loc) (value child_data : pyval) : M pyval :=
  ret value.

(** [get_child_data] *)
Definition IFuzzable_get_child_data (self : loc) (mutation : loc) : M pyval :=
  ret PyNone.

(** [reset]: a docstring and a bare [return]. *)
Definition IFuzzable_reset (self : loc) : M pyval :=
  ret PyNone.

(** ** Classes and method lookup *)

(** The class table entry of a concrete element class: its [__name__] and
    the methods it overrides ([None]: inherited from [IFuzzable]). *)
Record Variant : Type := MkVariant {
  cls_name : string;
  ov_mutations : option (loc → M pyval);
  ov_mutant_index : option (loc → M pyval);
  ov_original_value : option (loc → M pyval);
  ov_mutate : option (loc → M pyval);
  ov_num_mutations : option (loc → M pyval);
  ov_render : option (loc → M pyval);
  ov_encode : option (loc → pyval → pyval → M pyval);
  ov_get_child_data : option (loc → loc → M pyval);
  ov_reset : option (loc → M pyval)
}.

(** A class that overrides nothing. *)
Definition plain_variant (n : string) : Variant :=
  MkVariant n None None None None None None None None None.

(** A call of an overridable method on a receiver. *)
Inductive call : Type :=
| Call_mutations (self : loc)
| Call_mutant_index (self : loc)
| Call_original_value (self : loc)
| Call_mutate (self : loc)
| Call_num_mutations (self : loc)
| Call_render (self : loc)
| Call_encode (self : loc) (value child_data : pyval)
| Call_get_child_data (self : loc) (mutation : loc)
| Call_reset (self : loc).

Definition receiver (c : call) : loc :=
  match c with
  | Call_mutations self | Call_mutant_index self | Call_original_value self
  | Call_mutate self | Call_num_mutations self | Call_render self
  | Call_encode self _ _ | Call_get_child_data self _ | Call_reset self => self
  end.

(** The body [IFuzzable] itself gives the method. *)
Definition base_body (c : call) : M pyval :=
  match c with
  | Call_mutations self => IFuzzable_mutations self
  | Call_mutant_index self => IFuzzable_mutant_index self
  | Call_original_value self => IFuzzable_original_value self
  | Call_mutate self => IFuzzable_mutate self
  | Call_num_mutations self => IFuzzable_num_mutations self
  | Call_render self => IFuzzable_render self
  | Call_encode self v cd => IFuzzable_encode self v cd
  | Call_get_child_data self m => IFuzzable_get_child_data self m
  | Call_reset self => IFuzzable_reset self
  end.

(** The body the class [cls] gives the method, if it overrides it. *)
Definition override (cls : Variant) (c : call) : option (M pyval) :=
  match c with
  | Call_mutations self => (λ f, f self) <$> ov_mutations cls
  | Call_mutant_index self => (λ f, f self) <$> ov_mutant_index cls
  | Call_original_value self => (λ f, f self) <$> ov_original_value cls
  | Call_mutate self => (λ f, f self) <$> ov_mutate cls
  | Call_num_mutations self => (λ f, f self) <$> ov_num_mutations cls
  | Call_render self => (λ f, f self) <$> ov_render cls
  | Call_encode self v cd => (λ f, f self v cd) <$> ov_encode cls
  | Call_get_child_data self m => (λ f, f self m) <$> ov_get_child_data cls
  | Call_reset self => (λ f, f self) <$> ov_reset cls
  end.

Section IFuzzable.

(** The classes of the program, by index. *)
Variable classes : nat → Variant.

(** [type(self)] *)
Definition class_of (self : loc) : M Variant := λ w,
  match objs w !! self with
  | Some o => (Returns (classes (o_class o)), w)
  | None => (Raises NoSuchObject, w)
  end.

(** [self.m(...)]: the override of [type(self)] if there is one, else the
    body in [IFuzzable]. *)
Definition invoke (c : call) : M pyval :=
  cls <- class_of (receiver c) ;;
  default (base_body c) (override cls c).

Definition mutations (self : loc) : M pyval := invoke (Call_mutations self).
Definition mutant_index (self : loc) : M pyval := invoke (Call_mutant_index self).
Definition original_value (self : loc) : M pyval := invoke (Call_original_value self).
Definition mutate (self : loc) : M pyval := invoke (Call_mutate self).
Definition num_mutations (self : loc) : M pyval := invoke (Call_num_mutations self).
Definition render (self : loc) : M pyval := invoke (Call_render self).
Definition encode (self : loc) (value child_data : pyval) : M pyval :=
  invoke (Call_encode self value child_data).
Definition get_child_data (self : loc) (mutation : loc) : M pyval :=
  invoke (Call_get_child_data self mutation).
Definition reset (self : loc) : M pyval := invoke (Call_reset self).

(** [name] (property) *)
Definition name (self : loc) : M pyval :=
  n <- getattr self "_name" ;;
  if is_None n then
    (c <- get_name_counter ;;
     set_name_counter (c + 1) ;;;
     cls <- class_of self ;;
     c' <- get_name_counter ;;
     setattr self "_name" (PyStr (cls_name cls +:+ pretty c')) ;;;
     getattr self "_name")
  else
    getattr self "_name".

(** [qualified_name] (property) *)
Definition qualified_name (self : loc) : M pyval :=
  h <- hasattr self "_context_path" ;;
  (if negb h then setattr self "_context_path" PyNone else ret ()) ;;;
  cp <- getattr self "_context_path" ;;
  n <- name self ;;
  lift (str_join "." (List.filter truthy [cp; n])).

(** [render_mutated] *)
Definition render_mutated (self : loc) (mutation : loc) : M pyval :=
  child_data <- get_child_data self mutation ;;
  qn <- qualified_name self ;;
  d <- get_mutations mutation ;;
  if contains d qn then
    (d' <- get_mutations mutation ;;
     qn' <- qualified_name self ;;
     value <- subscript_val d' qn' ;;
     encode self value child_data)
  else
    (value <- original_value self ;;
     encode self value child_data).

(** ** Callers: sequences of operations on the store *)

Inductive op : Type :=
| Op_fuzzable (self : loc)
| Op_name (self : loc)
| Op_qualified_name (self : loc)
| Op_context_path (self : loc)
| Op_set_context_path (self : loc) (x : pyval)
| Op_render_mutated (self : loc) (mutation : loc)
| Op_call (c : call).

Definition run_op (o : op) : M pyval :=
  match o with
  | Op_fuzzable self => fuzzable self
  | Op_name self => name self
  | Op_qualified_name self => qualified_name self
  | Op_context_path self => context_path self
  | Op_set_context_path self x => set_context_path self x ;;; ret PyNone
  | Op_render_mutated self mutation => render_mutated self mutation
  | Op_call c => invoke c
  end.

(** The store after a caller ran [ops] in order; an exception ends the
    operation that raised it, not the caller. *)
Definition run_ops (ops : list op) (w : World) : World :=
  foldl (λ w o, snd (run_op o w)) w ops.

End IFuzzable.

Arguments run_ops classes ops w : simpl never.

(** ** Relations between an earlier and a later store *)

(** Element [l] carries the name [v]: [l._name] is [v], and [v] is not
    [None]. *)
Definition named_in (w : World) (l : loc) (v : pyval) : Prop :=
  ∃ o, objs w !! l = Some o ∧ o_dict o !! "_name" = Some v ∧ v ≠ PyNone.

(** From [w] to [w'] the counter did not go down and no element lost or
    changed a name it carried. *)
Definition name_stable (w w' : World) : Prop :=
  name_counter w ≤ name_counter w' ∧
  ∀ l v, named_in w l v → named_in w' l v.

(** From [w] to [w'] the mapping of the [Mutation] object [m] did not
    change. *)
Definition mutation_kept (m : loc) (w w' : World) : Prop :=
  mutation_objs w' !! m = mutation_objs w !! m.

(** Every run of [c] relates the store before to the store after. *)
Definition preserves {A} (R : World → World → Prop) (c : M A) : Prop :=
  ∀ w, R w (snd (c w)).

(** Every method body a class of the table overrides with preserves [R]. *)
Definition overrides_preserve (classes : nat → Variant)
    (R : World → World → Prop) : Prop :=
  ∀ i c body, override (classes i) c = Some body → preserves R body.

(** The store once [qualified_name] has made sure [_context_path] is
    there. *)
Definition with_context_path (self : loc) (o : obj) (w : World) : World :=
  match o_dict o !! "_context_path" with
  | Some _ => w
  | None =>
      MkWorld (name_counter w)
              (<[self := Obj (o_class o) (<["_context_path" := PyNone]> (o_dict o))]> (objs w))
              (mutation_objs w)
  end.

(** An element is settled once it has a context path attribute and
    carries a name: [qualified_name] then only reads. *)
Definition settled (w : World) (self : loc) (cp n : pyval) : Prop :=
  ∃ o, objs w !! self = Some o ∧ o_dict o !! "_context_path" = Some cp ∧
       o_dict o !! "_name" = Some n ∧ n ≠ PyNone.

(** From [w] to [w'] every element is still there with its class and with
    the value, or the absence, of its attribute [a]. *)
Definition attr_kept (a : string) (w w' : World) : Prop :=
  ∀ l o, objs w !! l = Some o →
    ∃ o', objs w' !! l = Some o' ∧ o_class o' = o_class o ∧
          o_dict o' !! a = o_dict o !! a.

(** [l] is an element whose [_name] is [None]: it was built without a
    name and its name has not been read yet. *)
Definition unnamed (w : World) (l : loc) : bool :=
  match objs w !! l with
  | Some o =>
      match o_dict o !! "_name" with
      | Some PyNone => true
      | _ => false
      end
  | None => false
  end.

(** The class [cls] inherits the three methods [render_mutated] calls. *)
Definition inherits_pipeline (cls : Variant) : Prop :=
  ov_get_child_data cls = None ∧ ov_encode cls = None ∧
  ov_original_value cls = None.

(** ** Class creation

    [IFuzzable] is created by the metaclass [DocStringInheritor], and so is
    every class that derives from it.  A class is its name, its base (every
    class of the file has one), its [__doc__], its own dictionary and the
    set [__abstractmethods__] that instantiation looks at. *)

Module Meta.

Inductive attr_kind : Type :=
| Function            (* def *)
| Property            (* @property *)
| AbstractProperty    (* @abc.abstractproperty *)
| Data                (* an object whose __doc__ cannot be assigned:
                         an int, a str, None *)
| Other.              (* any other object: its __doc__ can be assigned *)

Record attribute : Type := MkAttr {
  a_kind : attr_kind;
  a_doc : option string;       (* attribute.__doc__ *)
  a_fn_abstract : bool         (* the function, or the getter of the property,
                                  is decorated with abc.abstractmethod *)
}.

(** [getattr(attribute, "__isabstractmethod__", False)] *)
Definition isabstract (a : attribute) : bool :=
  match a_kind a with
  | AbstractProperty => true
  | _ => a_fn_abstract a
  end.

(** [isinstance(attribute, property)] *)
Definition is_property (a : attribute) : bool :=
  match a_kind a with
  | Property | AbstractProperty => true
  | _ => false
  end.

#[warnings="-register-all"]
Inductive pyclass : Type := MkClass {
  c_name : string;
  c_base : option pyclass;
  c_doc : option string;
  c_dict : gmap string attribute;
  c_abstractmethods : gset string
}.

(** The namespace of a class body: [clsdict["__doc__"]] and the rest. *)
Record namespace : Type := MkNamespace {
  ns_doc : option string;
  ns_attrs : gmap string attribute
}.

(** Truth value of a docstring: [None] and the empty string are false. *)
Definition doc_truthy (d : option string) : bool :=
  match d with
  | Some s => negb (String.eqb s "")
  | None => false
  end.

(** [cls.mro()] *)
Fixpoint mro (c : pyclass) : list pyclass :=
  c :: match c_base c with
       | Some b => mro b
       | None => []
       end.

(** [getattr(cls, attr)], and [hasattr(cls, attr)] is whether there is one *)
Definition class_getattr (c : pyclass) (attr : string) : option attribute :=
  head (omap (λ k, c_dict k !! attr) (mro c)).

(** The first true docstring of the list. *)
Definition first_doc (docs : list (option string)) : option string :=
  mjoin (head (List.filter doc_truthy docs)).

(** [type.__new__(meta, name, bases, clsdict)]: [__abstractmethods__] is
    not computed. *)
Definition type_new (name : string) (base : pyclass) (clsdict : namespace)
    : pyclass :=
  MkClass name (Some base) (ns_doc clsdict) (ns_attrs clsdict) ∅.

(** Give [attribute] the docstring [doc]: a property is built again from
    its accessors as a plain [property]; otherwise [__doc__] is assigned,
    which a function and an object with a writable [__doc__] allow and an
    object of a built-in type such as [int] refuses. *)
Definition set_doc (a : attribute) (doc : string) : outcome attribute :=
  if is_property a then
    Returns (MkAttr Property (Some doc) (a_fn_abstract a))
  else
    match a_kind a with
    | Data => Raises (AttributeError "__doc__")
    | k => Returns (MkAttr k (Some doc) (a_fn_abstract a))
    end.

(** The second loop of [DocStringInheritor.__new__], for one attribute. *)
Definition inherit_attr_doc (base : pyclass) (attr : string) (a : attribute)
    : outcome attribute :=
  if doc_truthy (a_doc a) then Returns a
  else
    match first_doc (omap (λ mro_cls, a_doc <$> class_getattr mro_cls attr)
                          (mro base)) with
    | Some doc => set_doc a doc
    | None => Returns a
    end.

(** The second loop, over the whole namespace. *)
Definition inherit_attr_docs (base : pyclass) (attrs : gmap string attribute)
    : outcome (gmap string attribute) :=
  map_fold
    (λ attr a acc,
       match acc with
       | Returns done =>
           match inherit_attr_doc base attr a with
           | Returns a' => Returns (<[attr := a']> done)
           | Raises e => Raises e
           end
       | Raises e => Raises e
       end)
    (Returns ∅) attrs.

(** [DocStringInheritor.__new__(meta, name, bases, clsdict)], for
    [bases = (base,)] *)
Definition DocStringInheritor_new (name : string) (base : pyclass)
    (clsdict : namespace) : outcome pyclass :=
  let doc :=
    if doc_truthy (ns_doc clsdict) then ns_doc clsdict
    else
      match first_doc (c_doc <$> mro base) with
      | Some doc => Some doc
      | None => ns_doc clsdict
      end in
  match inherit_attr_docs base (ns_attrs clsdict) with
  | Returns attrs => Returns (type_new name base (MkNamespace doc attrs))
  | Raises e => Raises e
  end.

(** [abc.ABCMeta.__new__] of the standard library, to compare with, for
    [bases = (base,)] *)
Definition ABCMeta_new (name : string) (base : pyclass) (clsdict : namespace)
    : pyclass :=
  let cls := type_new name base clsdict in
  let own := dom (filter (λ kv, isabstract kv.2 = true) (ns_attrs clsdict)) in
  let inherited :=
    filter (λ n, isabstract <$> class_getattr cls n = Some true)
           (c_abstractmethods base) in
  MkClass (c_name cls) (c_base cls) (c_doc cls) (c_dict cls) (own ∪ inherited).

(** [cls()]: [object.__new__] refuses a class whose [__abstractmethods__]
    is not empty; the instance starts with an empty [__dict__]. *)
Definition instantiate (c : pyclass) : outcome (gmap string pyval) :=
  if decide (c_abstractmethods c = ∅) then Returns ∅ else Raises TypeError.

(** [object], with the attributes the classes below name. *)
Definition object_class : pyclass :=
  MkClass "object" None (Some "The most base type")
    (list_to_map
       [("__init__", MkAttr Function (Some "Initialize self.  See help(type(self)) for accurate signature.") false);
        ("__repr__", MkAttr Function (Some "Return repr(self).") false);
        ("__str__", MkAttr Function (Some "Return str(self).") false)])
    ∅.

(** The body of [class IFuzzable]. *)
Definition IFuzzable_namespace : namespace :=
  MkNamespace (Some "Describes a fuzzable message element or message.")
    (list_to_map
       [("name_counter", MkAttr Data (Some "int([x]) -> integer") false);
        ("fuzzable", MkAttr Property (Some "If False, this element should not be mutated in normal fuzzing.") false);
        ("mutations", MkAttr AbstractProperty (Some "Yields mutations.") false);
        ("mutant_index", MkAttr Property (Some "Index of current mutation. 0 => normal value. 1 => first mutation.") false);
        ("original_value", MkAttr Property (Some "Original, non-mutated value of element.") true);
        ("name", MkAttr Property (Some "Element name, should be specific for each instance.") false);
        ("qualified_name", MkAttr Property None false);
        ("context_path", MkAttr Property None false);
        ("mutate", MkAttr Function (Some "Mutate this element. Returns True each time and False on completion.") false);
        ("num_mutations", MkAttr Function (Some "Return the total number of mutations for this element.") true);
        ("render", MkAttr Function (Some "Return rendered value. Equal to original value after reset().") true);
        ("encode", MkAttr Function None false);
        ("render_mutated", MkAttr Function (Some "Render after applying mutation, if applicable.") false);
        ("get_child_data", MkAttr Function None false);
        ("reset", MkAttr Function (Some "Reset element to pre-mutation state.") false);
        ("__repr__", MkAttr Function None true);
        ("__len__", MkAttr Function (Some "Length of field. May vary if mutate() changes the length.") true);
        ("__bool__", MkAttr Function (Some "Make sure instances evaluate to True even if __len__ is zero.") true)]).

(** A class statement after another, and the use of a class that a
    statement created. *)
Definition and_then {A B} (o : outcome A) (k : A → outcome B) : outcome B :=
  match o with
  | Returns a => k a
  | Raises e => Raises e
  end.

(** [class IFuzzable(with_metaclass(DocStringInheritor, object))] *)
Definition IFuzzable_class : outcome pyclass :=
  DocStringInheritor_new "IFuzzable" object_class IFuzzable_namespace.

(** The operations [IFuzzable] marks abstract. *)
Definition abstract_marked : list string :=
  ["mutations"; "original_value"; "num_mutations"; "render";
   "__repr__"; "__len__"; "__bool__"].

(** [class Bare(IFuzzable): pass] *)
Definition Bare_class : outcome pyclass :=
  and_then IFuzzable_class (λ base,
    DocStringInheritor_new "Bare" base (MkNamespace None ∅)).

(** The same two class statements with [abc.ABCMeta] as the metaclass. *)
Definition Bare_class_ABCMeta : pyclass :=
  ABCMeta_new "Bare"
    (ABCMeta_new "IFuzzable" object_class IFuzzable_namespace)
    (MkNamespace None ∅).

End Meta.

(** ** Example classes and stores *)

(** A class that keeps the older interface's index in [_mutant_index] and
    has three mutations, and inherits [mutate]. *)
Definition legacy_variant : Variant :=
  MkVariant "Legacy"
    None
    (Some (λ self, getattr self "_mutant_index"))
    None
    None
    (Some (λ self, ret (PyInt 3)))
    None None None None.

(** Class 0 overrides nothing; every other index is [legacy_variant]. *)
Definition example_classes (i : nat) : Variant :=
  match i with
  | O => plain_variant "Bare"
  | S _ => legacy_variant
  end.

(** Two elements of class 0 built without a name, and three [Mutation]s. *)
Definition w_unnamed : World :=
  MkWorld 0
    {[ 1%nat := Obj 0 {[ "_name" := PyNone ]};
       2%nat := Obj 0 {[ "_name" := PyNone ]} ]}
    {[ 7%nat := {[ "Bare1" := PyInt 9999 ]};
       8%nat := ∅;
       9%nat := {[ "header.len" := PyInt 9999 ]} ]}.

(** An element named ["len"] attached under ["header"]. *)
Definition w_header : World :=
  MkWorld 0
    {[ 1%nat := Obj 0 {[ "_name" := PyStr "len";
                         "_context_path" := PyStr "header" ]} ]}
    {[ 7%nat := {[ "Bare1" := PyInt 9999 ]};
       8%nat := ∅;
       9%nat := {[ "header.len" := PyInt 9999 ]} ]}.

(** An element whose name is the empty string, attached under ["header"]. *)
Definition w_empty_name : World :=
  MkWorld 0
    {[ 1%nat := Obj 0 {[ "_name" := PyStr "";
                         "_context_path" := PyStr "header" ]} ]}
    ∅.

(** An element of [legacy_variant] on its first mutation. *)
Definition w_legacy : World :=
  MkWorld 0
    {[ 1%nat := Obj 1 {[ "_name" := PyStr "x"; "_mutant_index" := PyInt 1 ]} ]}
    ∅.

(** An element built without a name and marked fuzzable, and a second
    element with a name of its own. *)
Definition w_fuzzable : World :=
  MkWorld 0
    {[ 1%nat := Obj 0 {[ "_name" := PyNone; "_fuzzable" := PyBool true ]};
       2%nat := Obj 0 {[ "_name" := PyStr "len"; "_fuzzable" := PyBool false ]} ]}
    {[ 7%nat := {[ "Bare1" := PyInt 9999 ]} ]}.

(** An element whose constructor assigned no [_name], and an empty
    [Mutation]. *)
Definition w_nameless : World :=
  MkWorld 0 {[ 1%nat := Obj 0 {[ "_fuzzable" := PyBool true ]} ]} {[ 7%nat := ∅ ]}.

(** The store that holds one element of class 0 with the instance
    dictionary [d], at location 1. *)
Definition store_of_instance (d : gmap string pyval) : World :=
  MkWorld 0 {[ 1%nat := Obj 0 d ]} ∅.

(** An element of [legacy_variant] past its last mutation. *)
Definition w_exhausted : World :=
  MkWorld 0
    {[ 1%nat := Obj 1 {[ "_name" := PyStr "x"; "_mutant_index" := PyInt 4 ]} ]}
    ∅.

(** A composite class: its [get_child_data] reads what the [Mutation]
    gives its child ["blk.child"], the child's original value when it gives
    nothing, and its [encode] is the child data.  Neither writes. *)
Definition block_variant : Variant :=
  MkVariant "Block"
    None None None None None None
    (Some (λ self value child_data, ret child_data))
    (Some (λ self mutation,
             d <- get_mutations mutation ;;
             ret (default (PyStr "orig-child") (d !! "blk.child"))))
    None.

Definition block_classes (i : nat) : Variant := block_variant.

(** A block named ["blk"], a [Mutation] for its child only, and an empty
    [Mutation]. *)
Definition w_block : World :=
  MkWorld 0
    {[ 1%nat := Obj 0 {[ "_name" := PyStr "blk" ]} ]}
    {[ 7%nat := {[ "blk.child" := PyStr "MUTATED" ]};
       8%nat := ∅ ]}.

(** What a caller may do between two reads of a name. *)
Definition example_ops : list op :=
  [Op_set_context_path 1%nat (PyStr "header");
   Op_qualified_name 1%nat;
   Op_name 2%nat;
   Op_render_mutated 1%nat 7%nat;
   Op_call (Call_mutate 1%nat);
   Op_call (Call_reset 1%nat)].

(** * Properties *)

(** ** The monad *)

Section Preservation.
Context {R : World → World → Prop} `{!Reflexive R, !Transitive R}.

Lemma preserves_ret {A} (a : A) : preserves R (ret a).
Proof. intros w. reflexivity. Qed.

Lemma preserves_raise {A} e : preserves R (@raise A e).
Proof. intros w. reflexivity. Qed.

Lemma preserves_lift {A} (o : outcome A) : preserves R (lift o).
Proof. intros w. reflexivity. Qed.

Lemma preserves_bind {A B} (c : M A) (k : A → M B) :
  preserves R c → (∀ a, preserves R (k a)) → preserves R (bind c k).
Proof.
  intros Hc Hk w. unfold bind.
  specialize (Hc w). destruct (c w) as [[a|e] w1]; simpl in *; [|done].
  etrans; [exact Hc|apply Hk].
Qed.

Lemma preserves_getattr self a : preserves R (getattr self a).
Proof.
  intros w. unfold getattr.
  destruct (objs w !! self) as [o|]; [|reflexivity].
  destruct (o_dict o !! a); reflexivity.
Qed.

Lemma preserves_hasattr self a : preserves R (hasattr self a).
Proof.
  intros w. unfold hasattr. destruct (objs w !! self); reflexivity.
Qed.

Lemma preserves_get_mutations m : preserves R (get_mutations m).
Proof.
  intros w. unfold get_mutations. destruct (mutation_objs w !! m); reflexivity.
Qed.

Lemma preserves_subscript_val d k : preserves R (subscript_val d k).
Proof.
  destruct k; simpl; try apply preserves_raise.
  unfold subscript. destruct (d !! s); [apply preserves_ret|apply preserves_raise].
Qed.

Lemma preserves_class_of classes self : preserves R (class_of classes self).
Proof.
  intros w. unfold class_of. destruct (objs w !! self); reflexivity.
Qed.

Lemma preserves_base_body c : preserves R (base_body c).
Proof. destruct c; apply preserves_ret. Qed.

Lemma preserves_invoke classes c :
  overrides_preserve classes R → preserves R (invoke classes c).
Proof.
  intros Hov w. unfold invoke, bind, class_of.
  destruct (objs w !! receiver c) as [o|]; [|reflexivity].
  destruct (override (classes (o_class o)) c) as [body|] eqn:Hb; simpl.
  - exact (Hov _ _ _ Hb w).
  - apply preserves_base_body.
Qed.
End Preservation.

Create HintDb preserves discriminated.
#[global] Hint Resolve preserves_ret preserves_raise preserves_lift
  preserves_getattr preserves_hasattr preserves_get_mutations
  preserves_subscript_val preserves_class_of preserves_base_body
  preserves_invoke : preserves.

(** Walk through the statements of a method body, leaving one goal for
    each statement. *)
Ltac preserves_seq :=
  repeat match goal with
         | |- preserves _ (bind _ _) => apply preserves_bind; [|intros ?]
         | |- preserves _ (if negb ?b then _ else _) => destruct b; simpl
         | |- preserves _ (if ?b then _ else _) => destruct b
         end.

(** ** [name] *)

Section Naming.
Variable classes : nat → Variant.

(** What [name] does, by the state of [self._name]. *)
Lemma name_unfold self w :
  name classes self w =
  match objs w !! self with
  | None => (Raises NoSuchObject, w)
  | Some o =>
      match o_dict o !! "_name" with
      | None => (Raises (AttributeError "_name"), w)
      | Some PyNone =>
          let n := PyStr (cls_name (classes (o_class o)) +:+
                          pretty (name_counter w + 1)) in
          (Returns n,
           MkWorld (name_counter w + 1)
                   (<[self := Obj (o_class o) (<["_name" := n]> (o_dict o))]> (objs w))
                   (mutation_objs w))
      | Some v => (Returns v, w)
      end
  end.
Proof.
  unfold name, bind, getattr.
  destruct (objs w !! self) as [o|] eqn:Ho; [|done].
  destruct (o_dict o !! "_name") as [v|] eqn:Hv; [|done].
  destruct v; simpl; rewrite ?Ho, ?Hv; try done.
  unfold class_of, setattr, getattr, get_name_counter, set_name_counter; simpl.
  rewrite Ho; simpl. rewrite Ho; simpl.
  rewrite lookup_insert_eq; simpl. by rewrite lookup_insert_eq.
Qed.

Lemma name_named self w v :
  named_in w self v → name classes self w = (Returns v, w).
Proof.
  intros (o & Ho & Hv & Hne). rewrite name_unfold, Ho, Hv.
  by destruct v.
Qed.

Lemma name_returns_named self w v w' :
  name classes self w = (Returns v, w') → named_in w' self v.
Proof.
  rewrite name_unfold.
  destruct (objs w !! self) as [o|] eqn:Ho; [|done].
  destruct (o_dict o !! "_name") as [x|] eqn:Hx; [|done].
  destruct x; intros [= <- <-];
    try (exists o; split_and!; done).
  eexists. simpl. rewrite lookup_insert_eq. split_and!; [done| |done].
  simpl. by rewrite lookup_insert_eq.
Qed.

Global Instance name_stable_refl : Reflexive name_stable.
Proof. intros w. split; [lia|auto]. Qed.

Global Instance name_stable_trans : Transitive name_stable.
Proof. intros w1 w2 w3 [H1 H2] [H3 H4]. split; [lia|auto]. Qed.

Global Instance mutation_kept_refl m : Reflexive (mutation_kept m).
Proof. by intros w. Qed.

Global Instance mutation_kept_trans m : Transitive (mutation_kept m).
Proof. unfold mutation_kept. intros w1 w2 w3 H1 H2. congruence. Qed.

Lemma name_name_stable self : preserves name_stable (name classes self).
Proof.
  intros w. rewrite name_unfold.
  destruct (objs w !! self) as [o|] eqn:Ho; [|reflexivity].
  destruct (o_dict o !! "_name") as [x|] eqn:Hx; [|reflexivity].
  destruct x; try reflexivity. simpl.
  split; simpl; [lia|].
  intros l v (o' & Ho' & Hv & Hne).
  destruct (decide (l = self)) as [->|Hl].
  - congruence.
  - exists o'. simpl. by rewrite lookup_insert_ne.
Qed.

Lemma name_mutation_kept m self : preserves (mutation_kept m) (name classes self).
Proof.
  intros w. rewrite name_unfold. unfold mutation_kept.
  destruct (objs w !! self) as [o|]; [|done].
  destruct (o_dict o !! "_name") as [x|]; [|done].
  by destruct x.
Qed.

(** Assigning an attribute other than [_name] *)
Lemma setattr_name_stable self a v :
  a ≠ "_name" → preserves name_stable (setattr self a v).
Proof.
  intros Ha w. unfold setattr.
  destruct (objs w !! self) as [o|] eqn:Ho; [|reflexivity].
  split; simpl; [lia|].
  intros l x (o' & Ho' & Hx & Hne).
  destruct (decide (l = self)) as [->|Hl].
  - eexists. simpl. rewrite lookup_insert_eq. split_and!; [done| |done].
    simpl. rewrite lookup_insert_ne by done. congruence.
  - exists o'. simpl. by rewrite lookup_insert_ne.
Qed.

Lemma setattr_mutation_kept m self a v :
  preserves (mutation_kept m) (setattr self a v).
Proof.
  intros w. unfold setattr, mutation_kept.
  by destruct (objs w !! self).
Qed.

(** ** [qualified_name] *)

Lemma with_context_path_lookup self o w :
  objs w !! self = Some o →
  ∃ o', objs (with_context_path self o w) !! self = Some o' ∧
        o_dict o' !! "_context_path" =
          Some (default PyNone (o_dict o !! "_context_path")).
Proof.
  intros Ho. unfold with_context_path.
  destruct (o_dict o !! "_context_path") as [cp|] eqn:Hcp.
  - by exists o.
  - eexists. simpl. rewrite lookup_insert_eq. split; [done|].
    simpl. by rewrite lookup_insert_eq.
Qed.

(** [name] writes no attribute but [_name]. *)
Lemma name_keeps_attr self a w r w' o :
  a ≠ "_name" →
  name classes self w = (r, w') → objs w !! self = Some o →
  ∃ o', objs w' !! self = Some o' ∧ o_dict o' !! a = o_dict o !! a.
Proof.
  intros Ha. rewrite name_unfold. intros H Ho. rewrite Ho in H.
  destruct (o_dict o !! "_name") as [x|]; [|injection H as <- <-; eauto].
  destruct x; injection H as <- <-; eauto.
  eexists. simpl. rewrite lookup_insert_eq. split; [done|].
  simpl. by rewrite lookup_insert_ne.
Qed.

Lemma qualified_name_unfold self w :
  qualified_name classes self w =
  match objs w !! self with
  | None => (Raises NoSuchObject, w)
  | Some o =>
      match name classes self (with_context_path self o w) with
      | (Returns n, w') =>
          (str_join "." (List.filter truthy
                           [default PyNone (o_dict o !! "_context_path"); n]), w')
      | (Raises e, w') => (Raises e, w')
      end
  end.
Proof.
  unfold qualified_name, with_context_path, bind at 1, hasattr.
  destruct (objs w !! self) as [o|] eqn:Ho; [|done].
  destruct (o_dict o !! "_context_path") as [cp|] eqn:Hcp; simpl.
  - unfold bind, ret, getattr, lift. rewrite Ho, Hcp.
    by destruct (name classes self w) as [[n|e] w'].
  - unfold bind, setattr, getattr, lift. rewrite Ho. simpl.
    rewrite lookup_insert_eq. simpl. rewrite lookup_insert_eq.
    by destruct (name classes self _) as [[n|e] w'].
Qed.

Lemma settled_named w self cp n : settled w self cp n → named_in w self n.
Proof. intros (o & ? & ? & ? & ?). by exists o. Qed.

Lemma qualified_name_settled self w cp n :
  settled w self cp n →
  qualified_name classes self w = (str_join "." (List.filter truthy [cp; n]), w).
Proof.
  intros Hs. pose proof (settled_named _ _ _ _ Hs) as Hn.
  destruct Hs as (o & Ho & Hcp & _).
  rewrite qualified_name_unfold, Ho. unfold with_context_path.
  rewrite Hcp. by rewrite (name_named _ _ _ Hn).
Qed.

Lemma qualified_name_returns self w qn w' :
  qualified_name classes self w = (Returns qn, w') →
  ∃ cp n, settled w' self cp n ∧
          str_join "." (List.filter truthy [cp; n]) = Returns qn.
Proof.
  rewrite qualified_name_unfold.
  destruct (objs w !! self) as [o|] eqn:Ho; [|done].
  destruct (name classes self (with_context_path self o w)) as [[n|e] w1] eqn:Hn;
    [|done].
  intros [= Hj <-].
  exists (default PyNone (o_dict o !! "_context_path")), n. split; [|done].
  destruct (name_returns_named _ _ _ _ Hn) as (o1 & Ho1 & Hn1 & Hne).
  exists o1. split_and!; try done.
  destruct (with_context_path_lookup self o w Ho) as (o2 & Ho2 & Hcp2).
  destruct (name_keeps_attr self "_context_path" _ _ _ o2 ltac:(done) Hn Ho2)
    as (o3 & Ho3 & Hcp3).
  congruence.
Qed.

(** A second read of [qualified_name] gives the first one's result and
    changes nothing. *)
Lemma qualified_name_again self w qn w' :
  qualified_name classes self w = (Returns qn, w') →
  qualified_name classes self w' = (Returns qn, w').
Proof.
  intros H. destruct (qualified_name_returns _ _ _ _ H) as (cp & n & Hs & Hj).
  by rewrite (qualified_name_settled _ _ _ _ Hs), Hj.
Qed.

Lemma str_join_returns_str sep items v :
  str_join sep items = Returns v → ∃ s, v = PyStr s.
Proof.
  unfold str_join. destruct (all_str items); [|done].
  intros [= <-]. eauto.
Qed.

Lemma qualified_name_returns_str self w qn w' :
  qualified_name classes self w = (Returns qn, w') → ∃ s, qn = PyStr s.
Proof.
  intros H. destruct (qualified_name_returns _ _ _ _ H) as (cp & n & _ & Hj).
  eauto using str_join_returns_str.
Qed.

Lemma qualified_name_name_stable self :
  preserves name_stable (qualified_name classes self).
Proof.
  unfold qualified_name. preserves_seq;
    eauto using name_name_stable, setattr_name_stable with preserves typeclass_instances.
Qed.

Lemma qualified_name_mutation_kept m self :
  preserves (mutation_kept m) (qualified_name classes self).
Proof.
  unfold qualified_name. preserves_seq;
    eauto using name_mutation_kept, setattr_mutation_kept with preserves typeclass_instances.
Qed.

(** ** [render_mutated] *)

(** [render_mutated] keeps whatever [name], the assignment of
    [_context_path] and the overriding bodies keep. *)
Lemma render_mutated_preserves (R : World → World → Prop)
    `{!Reflexive R, !Transitive R} self m :
  overrides_preserve classes R →
  (∀ l, preserves R (qualified_name classes l)) →
  preserves R (render_mutated classes self m).
Proof.
  intros Hov Hqn. unfold render_mutated, get_child_data, original_value, encode.
  preserves_seq; eauto with preserves typeclass_instances.
Qed.

Lemma run_op_name_stable o :
  overrides_preserve classes name_stable →
  preserves name_stable (run_op classes o).
Proof.
  intros Hov. destruct o; simpl; unfold fuzzable, context_path, set_context_path;
    preserves_seq;
    eauto using name_name_stable, qualified_name_name_stable,
      setattr_name_stable with preserves typeclass_instances.
  apply render_mutated_preserves;
    eauto using qualified_name_name_stable with typeclass_instances.
Qed.

Lemma run_ops_name_stable ops w :
  overrides_preserve classes name_stable →
  name_stable w (run_ops classes ops w).
Proof.
  intros Hov. revert w. unfold run_ops.
  induction ops as [|o ops IH]; intros w; simpl; [reflexivity|].
  etrans; [apply (run_op_name_stable o Hov w)|apply IH].
Qed.

(** The inherited [get_child_data] returns [None] and changes nothing. *)
Lemma get_child_data_inherited self m w o :
  objs w !! self = Some o →
  ov_get_child_data (classes (o_class o)) = None →
  get_child_data classes self m w = (Returns PyNone, w).
Proof.
  intros Ho Hov. unfold get_child_data, invoke, bind, class_of. simpl.
  by rewrite Ho, Hov.
Qed.

(** The two branches of [render_mutated], once the child data, the
    qualified name and the mapping are known. *)
Lemma render_mutated_unfold self m w cd w1 qn w2 d :
  get_child_data classes self m w = (Returns cd, w1) →
  qualified_name classes self w1 = (Returns (PyStr qn), w2) →
  mutation_objs w2 !! m = Some d →
  render_mutated classes self m w =
    match d !! qn with
    | Some v => encode classes self v cd w2
    | None =>
        (value <- original_value classes self ;;
         encode classes self value cd) w2
    end.
Proof.
  intros Hcd Hqn Hd. unfold render_mutated.
  unfold bind at 1. rewrite Hcd.
  unfold bind at 1. rewrite Hqn.
  unfold bind at 1, get_mutations at 1. rewrite Hd. simpl.
  destruct (d !! qn) as [v|] eqn:Hv.
  - rewrite bool_decide_eq_true_2 by eauto.
    unfold bind at 1, get_mutations. rewrite Hd.
    unfold bind at 1. rewrite (qualified_name_again _ _ _ _ Hqn).
    unfold bind at 1, subscript_val, subscript. by rewrite Hv.
  - rewrite bool_decide_eq_false_2; [done|].
    intros [? ?]; congruence.
Qed.
End Naming.


(** ** The example classes *)

Lemma example_overrides_preserve (R : World → World → Prop) `{!Reflexive R} :
  overrides_preserve example_classes R.
Proof.
  intros i c body Hb.
  destruct i, c; simpl in Hb; try discriminate;
    injection Hb as <-; first [apply preserves_getattr | apply preserves_ret].
Qed.

(** ** The render pipeline *)

(** C1: [render_mutated(m)] returns what [encode(v, child_data)] returns,
    where [child_data] is the result of [get_child_data(m)] and [v] is the
    value [m]'s mapping gives the element's qualified name when that name
    is a key of the mapping, and the element's [original_value]
    otherwise. *)
Theorem render_mutated_encodes classes self m w cd w1 qn w2 d :
  get_child_data classes self m w = (Returns cd, w1) →
  qualified_name classes self w1 = (Returns (PyStr qn), w2) →
  mutation_objs w2 !! m = Some d →
  (∀ v, d !! qn = Some v →
        render_mutated classes self m w = encode classes self v cd w2) ∧
  (d !! qn = None →
        render_mutated classes self m w =
          (value <- original_value classes self ;;
           encode classes self value cd) w2).
Proof.
  intros Hcd Hqn Hd.
  rewrite (render_mutated_unfold classes self m w cd w1 qn w2 d Hcd Hqn Hd).
  split.
  - by intros v ->.
  - by intros ->.
Qed.

Lemma render_mutated_encodes_witness :
  render_mutated example_classes 1%nat 9%nat w_header =
    (Returns (PyInt 9999), w_header) ∧
  render_mutated example_classes 1%nat 8%nat w_header =
    (Returns PyNone, w_header).
Proof.
  split.
  - pose proof (proj1 (render_mutated_encodes example_classes 1%nat 9%nat
        w_header PyNone w_header "header.len" w_header
        {[ "header.len" := PyInt 9999 ]}
        eq_refl eq_refl eq_refl) (PyInt 9999) eq_refl) as H.
    rewrite H. reflexivity.
  - pose proof (proj2 (render_mutated_encodes example_classes 1%nat 8%nat
        w_header PyNone w_header "header.len" w_header ∅
        eq_refl eq_refl eq_refl) eq_refl) as H.
    rewrite H. reflexivity.
Defined.

(** C8: [render_mutated(m)], the call of [get_child_data(m)] in it
    included, leaves [m]'s mapping as it was, provided the bodies that
    classes override methods with leave it so: the code of [IFuzzable]
    only reads the [Mutation]. *)
Theorem render_mutated_reads_mutation classes self m w :
  overrides_preserve classes (mutation_kept m) →
  mutation_objs (snd (render_mutated classes self m w)) !! m =
    mutation_objs w !! m.
Proof.
  intros Hov.
  apply (render_mutated_preserves classes (mutation_kept m) self m Hov).
  intros l. apply qualified_name_mutation_kept.
Qed.

Lemma render_mutated_reads_mutation_witness :
  mutation_objs (snd (render_mutated example_classes 1%nat 7%nat w_unnamed))
    !! 7%nat = Some {[ "Bare1" := PyInt 9999 ]}.
Proof.
  etrans.
  - apply (render_mutated_reads_mutation example_classes 1%nat 7%nat w_unnamed
             (example_overrides_preserve (mutation_kept 7%nat))).
  - reflexivity.
Defined.

(** C9, amended: for an element that inherits [get_child_data],
    [render_mutated] with a [Mutation] whose mapping has no entry for the
    element's qualified name gives what [render_mutated] with an empty
    mapping gives, result and store. *)
Theorem render_mutated_miss_is_empty classes self m1 m2 w o qn w' d1 :
  objs w !! self = Some o →
  ov_get_child_data (classes (o_class o)) = None →
  qualified_name classes self w = (Returns (PyStr qn), w') →
  mutation_objs w !! m1 = Some d1 →
  d1 !! qn = None →
  mutation_objs w !! m2 = Some ∅ →
  render_mutated classes self m1 w = render_mutated classes self m2 w.
Proof.
  intros Ho Hov Hqn Hd1 Hmiss Hd2.
  pose proof (qualified_name_mutation_kept classes m1 self w) as K1.
  pose proof (qualified_name_mutation_kept classes m2 self w) as K2.
  unfold mutation_kept in K1, K2. rewrite Hqn in K1, K2. simpl in K1, K2.
  rewrite (render_mutated_unfold classes self m1 w PyNone w qn w' d1);
    [|by eapply get_child_data_inherited|done|congruence].
  rewrite (render_mutated_unfold classes self m2 w PyNone w qn w' ∅);
    [|by eapply get_child_data_inherited|done|congruence].
  by rewrite Hmiss, lookup_empty.
Qed.

Lemma render_mutated_miss_is_empty_witness :
  render_mutated example_classes 1%nat 7%nat w_header =
  render_mutated example_classes 1%nat 8%nat w_header.
Proof.
  apply (render_mutated_miss_is_empty example_classes 1%nat 7%nat 8%nat
           w_header (Obj 0 {[ "_name" := PyStr "len";
                              "_context_path" := PyStr "header" ]})
           "header.len" w_header {[ "Bare1" := PyInt 9999 ]});
    reflexivity.
Defined.

(** C9, as stated, fails: a block whose [get_child_data] reads the entry
    of its child renders ["MUTATED"] with a [Mutation] that has an entry
    for the child and none for the block's own qualified name ["blk"],
    and ["orig-child"] with the empty [Mutation]. *)
Lemma render_mutated_miss_counterexample :
  fst (qualified_name block_classes 1%nat w_block) = Returns (PyStr "blk") ∧
  (∃ d, mutation_objs w_block !! 7%nat = Some d ∧ d !! "blk" = None) ∧
  mutation_objs w_block !! 8%nat = Some ∅ ∧
  fst (render_mutated block_classes 1%nat 7%nat w_block) =
    Returns (PyStr "MUTATED") ∧
  fst (render_mutated block_classes 1%nat 8%nat w_block) =
    Returns (PyStr "orig-child") ∧
  render_mutated block_classes 1%nat 7%nat w_block ≠
    render_mutated block_classes 1%nat 8%nat w_block.
Proof.
  split_and!; try done.
  by exists {[ "blk.child" := PyStr "MUTATED" ]}.
Qed.

(** ** Names *)

(** The result of [name] does not depend on whether [qualified_name] has
    already stored a context path. *)
Lemma name_with_context_path classes self o w :
  objs w !! self = Some o →
  fst (name classes self (with_context_path self o w)) =
  fst (name classes self w).
Proof.
  intros Ho. rewrite !name_unfold. unfold with_context_path.
  destruct (o_dict o !! "_context_path") as [cp|]; [done|].
  simpl. rewrite lookup_insert_eq, Ho. simpl.
  rewrite lookup_insert_ne by done.
  destruct (o_dict o !! "_name") as [x|]; [|done].
  by destruct x.
Qed.

(** The result of [qualified_name] from the element's name and context
    path, an unset context path counting as [None]. *)
Lemma qualified_name_result classes self w o n :
  objs w !! self = Some o →
  fst (name classes self w) = Returns n →
  fst (qualified_name classes self w) =
    str_join "." (List.filter truthy
                    [default PyNone (o_dict o !! "_context_path"); n]).
Proof.
  intros Ho Hn. rewrite qualified_name_unfold, Ho.
  rewrite <- (name_with_context_path classes self o w Ho) in Hn.
  destruct (name classes self (with_context_path self o w)) as [[x|e] w1];
    simpl in Hn; by simplify_eq.
Qed.

(** C4, amended: [qualified_name] is [name] when the context path is
    unset, [None] or empty; it is [context_path + "." + name] when the
    context path and the name are both non-empty; and it is the context
    path alone when the name is the empty string. *)
Theorem qualified_name_joins classes self w o n :
  objs w !! self = Some o →
  fst (name classes self w) = Returns (PyStr n) →
  (o_dict o !! "_context_path" = None ∨
   o_dict o !! "_context_path" = Some PyNone ∨
   o_dict o !! "_context_path" = Some (PyStr "") →
     fst (qualified_name classes self w) = Returns (PyStr n)) ∧
  (∀ cp, o_dict o !! "_context_path" = Some (PyStr cp) → cp ≠ "" →
     (n ≠ "" →
        fst (qualified_name classes self w) =
          Returns (PyStr (cp +:+ "." +:+ n))) ∧
     (n = "" →
        fst (qualified_name classes self w) = Returns (PyStr cp))).
Proof.
  intros Ho Hn.
  rewrite (qualified_name_result classes self w o (PyStr n) Ho Hn).
  split.
  - intros [-> | [-> | ->]]; simpl; by destruct n.
  - intros cp -> Hcp. destruct cp as [|a cp]; [done|].
    split; intros Hne; simpl.
    + by destruct n.
    + by subst n.
Qed.

Lemma qualified_name_joins_witness :
  fst (qualified_name example_classes 1%nat w_header) =
    Returns (PyStr "header.len").
Proof.
  refine (proj1 (proj2 (qualified_name_joins example_classes 1%nat w_header
            (Obj 0 {[ "_name" := PyStr "len";
                      "_context_path" := PyStr "header" ]})
            "len" eq_refl eq_refl) "header" eq_refl _) _); discriminate.
Defined.

(** C4, as stated, fails: an element whose name is the empty string and
    whose context path is ["header"] has the qualified name ["header"],
    not ["header."]. *)
Lemma qualified_name_empty_name_counterexample :
  fst (name example_classes 1%nat w_empty_name) = Returns (PyStr "") ∧
  fst (context_path 1%nat w_empty_name) = Returns (PyStr "header") ∧
  fst (qualified_name example_classes 1%nat w_empty_name) =
    Returns (PyStr "header") ∧
  fst (qualified_name example_classes 1%nat w_empty_name) ≠
    Returns (PyStr ("header" +:+ "." +:+ "")).
Proof. by split_and!. Qed.

(** C6: once [name] has been read, every later read returns the value the
    first read returned, whatever operations of the interface callers ran
    in between on any elements; and when the element was built without a
    name, the first read returns the name of its class followed by the
    counter after one increment, and leaves the counter incremented. *)
Theorem name_stable_once_read classes self w :
  overrides_preserve classes name_stable →
  (∀ n w1 ops,
     name classes self w = (Returns n, w1) →
     name classes self (run_ops classes ops w1) =
       (Returns n, run_ops classes ops w1)) ∧
  (∀ o,
     objs w !! self = Some o → o_dict o !! "_name" = Some PyNone →
     ∃ w1,
       name classes self w =
         (Returns (PyStr (cls_name (classes (o_class o)) +:+
                          pretty (name_counter w + 1))), w1) ∧
       name_counter w1 = name_counter w + 1).
Proof.
  intros Hov. split.
  - intros n w1 ops Hn. apply name_named.
    apply (run_ops_name_stable classes ops w1 Hov).
    by eapply name_returns_named.
  - intros o Ho Hnone. rewrite name_unfold, Ho, Hnone. eauto.
Qed.

Lemma name_stable_once_read_witness :
  name example_classes 1%nat
    (run_ops example_classes example_ops
       (snd (name example_classes 1%nat w_unnamed))) =
  (Returns (PyStr "Bare1"),
   run_ops example_classes example_ops
     (snd (name example_classes 1%nat w_unnamed))).
Proof.
  apply (proj1 (name_stable_once_read example_classes 1%nat w_unnamed
                  (example_overrides_preserve name_stable))).
  reflexivity.
Defined.

(** C7: two elements of one class built without names, whose names are
    first read one after the other (whatever callers do in between), get
    different names, and the counter is strictly larger after the second
    read than after the first. *)
Theorem auto_names_distinct classes l1 l2 w o1 n1 w1 ops o2 n2 w3 :
  overrides_preserve classes name_stable →
  objs w !! l1 = Some o1 → o_dict o1 !! "_name" = Some PyNone →
  name classes l1 w = (Returns n1, w1) →
  objs (run_ops classes ops w1) !! l2 = Some o2 →
  o_dict o2 !! "_name" = Some PyNone →
  o_class o2 = o_class o1 →
  name classes l2 (run_ops classes ops w1) = (Returns n2, w3) →
  n1 ≠ n2 ∧ name_counter w1 < name_counter w3.
Proof.
  intros Hov Ho1 Hn1 H1 Ho2 Hn2 Hcls H2.
  destruct (run_ops_name_stable classes ops w1 Hov) as [Hle _].
  rewrite name_unfold, Ho1, Hn1 in H1. injection H1 as <- <-.
  rewrite name_unfold, Ho2, Hn2 in H2. injection H2 as <- <-.
  simpl in *. rewrite Hcls. split; [|lia].
  intros [= Heq%(inj (String.app _))%(inj pretty)]. lia.
Qed.

Lemma auto_names_distinct_witness :
  PyStr "Bare1" ≠ PyStr "Bare2" ∧
  name_counter (snd (name example_classes 1%nat w_unnamed)) <
  name_counter
    (snd (name example_classes 2%nat (snd (name example_classes 1%nat w_unnamed)))).
Proof.
  apply (auto_names_distinct example_classes 1%nat 2%nat w_unnamed
           (Obj 0 {[ "_name" := PyNone ]}) (PyStr "Bare1")
           (snd (name example_classes 1%nat w_unnamed)) []
           (Obj 0 {[ "_name" := PyNone ]}) (PyStr "Bare2")
           (snd (name example_classes 2%nat
                   (snd (name example_classes 1%nat w_unnamed))))
           (example_overrides_preserve name_stable));
    reflexivity.
Defined.

(** C10: on an element whose context path was never set, reading
    [context_path] fails with a missing attribute; reading
    [qualified_name] stores [None] as the context path and returns the
    bare name, and reading [context_path] after that returns [None]. *)
Theorem qualified_name_initialises_context_path classes self w o n :
  objs w !! self = Some o →
  o_dict o !! "_context_path" = None →
  fst (name classes self w) = Returns (PyStr n) →
  context_path self w = (Raises (AttributeError "_context_path"), w) ∧
  ∃ w',
    qualified_name classes self w = (Returns (PyStr n), w') ∧
    context_path self w' = (Returns PyNone, w').
Proof.
  intros Ho Hcp Hn. split.
  { unfold context_path, getattr. by rewrite Ho, Hcp. }
  pose proof (qualified_name_result classes self w o (PyStr n) Ho Hn) as Hq.
  rewrite Hcp in Hq. simpl in Hq.
  assert (Hjoin : str_join "." (if negb (n =? "")%string then [PyStr n] else [])
                  = Returns (PyStr n)).
  { by destruct n. }
  rewrite Hjoin in Hq.
  destruct (qualified_name classes self w) as [r w'] eqn:Hqn.
  simpl in Hq. subst r. exists w'. split; [done|].
  (* the stored context path is the [None] that [qualified_name] wrote *)
  rewrite qualified_name_unfold, Ho in Hqn.
  destruct (with_context_path_lookup self o w Ho) as (o2 & Ho2 & Hcp2).
  rewrite Hcp in Hcp2. simpl in Hcp2.
  destruct (name classes self (with_context_path self o w)) as [[y|e] w1] eqn:Hy;
    [|done].
  injection Hqn as _ <-.
  destruct (name_keeps_attr classes self "_context_path" _ _ _ o2
              ltac:(done) Hy Ho2) as (o3 & Ho3 & Hcp3).
  unfold context_path, getattr. rewrite Ho3, Hcp3, Hcp2. done.
Qed.

Lemma qualified_name_initialises_context_path_witness :
  context_path 1%nat w_unnamed =
    (Raises (AttributeError "_context_path"), w_unnamed) ∧
  ∃ w',
    qualified_name example_classes 1%nat w_unnamed =
      (Returns (PyStr "Bare1"), w') ∧
    context_path 1%nat w' = (Returns PyNone, w').
Proof.
  apply (qualified_name_initialises_context_path example_classes 1%nat
           w_unnamed (Obj 0 {[ "_name" := PyNone ]}) "Bare1");
    reflexivity.
Defined.

(** ** The older, stateful interface *)

(** A method a class inherits runs the body written in [IFuzzable]. *)
Lemma invoke_inherited classes c w o :
  objs w !! receiver c = Some o →
  override (classes (o_class o)) c = None →
  invoke classes c w = base_body c w.
Proof.
  intros Ho Hov. unfold invoke, bind, class_of. by rewrite Ho, Hov.
Qed.

(** What the [mutate] of [IFuzzable] does, whatever its docstring says: on
    an element that inherits it, every call returns [None] and changes
    nothing, so that [mutant_index] reads after the call what it read
    before it. *)
Theorem mutate_inherited_is_noop classes self w o :
  objs w !! self = Some o →
  ov_mutate (classes (o_class o)) = None →
  mutate classes self w = (Returns PyNone, w) ∧
  mutant_index classes self (snd (mutate classes self w)) =
    mutant_index classes self w.
Proof.
  intros Ho Hov.
  assert (H : mutate classes self w = (Returns PyNone, w)).
  { unfold mutate.
    rewrite (invoke_inherited classes (Call_mutate self) w o Ho); [done|].
    simpl. by rewrite Hov. }
  by rewrite H.
Qed.

Lemma mutate_inherited_is_noop_witness :
  mutate example_classes 1%nat w_legacy = (Returns PyNone, w_legacy) ∧
  mutant_index example_classes 1%nat
    (snd (mutate example_classes 1%nat w_legacy)) =
    mutant_index example_classes 1%nat w_legacy.
Proof.
  apply (mutate_inherited_is_noop example_classes 1%nat w_legacy
           (Obj 1 {[ "_name" := PyStr "x"; "_mutant_index" := PyInt 1 ]}));
    reflexivity.
Defined.

(** C3, on the code: the docstring of [mutate] promises [True] on each
    call and [False] on completion.  On an element with three mutations
    whose [mutant_index] reads 1, which is in the Mutating state, the
    [mutate] of [IFuzzable] returns [None], not [True], and leaves
    [mutant_index] at 1, not 2; on an element past its last mutation it
    returns [None] as well, not [False]. *)
Theorem mutate_breaks_docstring :
  mutant_index example_classes 1%nat w_legacy = (Returns (PyInt 1), w_legacy) ∧
  num_mutations example_classes 1%nat w_legacy = (Returns (PyInt 3), w_legacy) ∧
  mutate example_classes 1%nat w_legacy = (Returns PyNone, w_legacy) ∧
  fst (mutate example_classes 1%nat w_legacy) ≠ Returns (PyBool true) ∧
  fst (mutant_index example_classes 1%nat
         (snd (mutate example_classes 1%nat w_legacy))) ≠ Returns (PyInt 2) ∧
  mutant_index example_classes 1%nat w_exhausted =
    (Returns (PyInt 4), w_exhausted) ∧
  mutate example_classes 1%nat w_exhausted = (Returns PyNone, w_exhausted) ∧
  fst (mutate example_classes 1%nat w_exhausted) ≠ Returns (PyBool false).
Proof. by split_and!. Qed.

(** What the [mutant_index] of [IFuzzable] does, whatever its docstring
    says: on an element that inherits it, reading it returns [None] in
    every state and changes nothing. *)
Theorem mutant_index_inherited_is_none classes self w o :
  objs w !! self = Some o →
  ov_mutant_index (classes (o_class o)) = None →
  mutant_index classes self w = (Returns PyNone, w).
Proof.
  intros Ho Hov. unfold mutant_index.
  rewrite (invoke_inherited classes (Call_mutant_index self) w o Ho); [done|].
  simpl. by rewrite Hov.
Qed.

Lemma mutant_index_inherited_is_none_witness :
  mutant_index example_classes 1%nat w_unnamed = (Returns PyNone, w_unnamed).
Proof.
  apply (mutant_index_inherited_is_none example_classes 1%nat w_unnamed
           (Obj 0 {[ "_name" := PyNone ]}));
    reflexivity.
Defined.

(** C5, on the code: the docstring of [mutant_index] says that 0 is the
    index of the normal value.  On an element that was never mutated, and
    again after [reset()], the [mutant_index] of [IFuzzable] reads
    [None], not the integer 0. *)
Theorem mutant_index_breaks_docstring :
  mutant_index example_classes 1%nat w_unnamed = (Returns PyNone, w_unnamed) ∧
  fst (mutant_index example_classes 1%nat w_unnamed) ≠ Returns (PyInt 0) ∧
  mutant_index example_classes 1%nat
    (snd (reset example_classes 1%nat w_unnamed)) = (Returns PyNone, w_unnamed) ∧
  fst (mutant_index example_classes 1%nat
         (snd (reset example_classes 1%nat w_unnamed))) ≠ Returns (PyInt 0).
Proof. by split_and!. Qed.

(** ** Abstract operations *)

(** A class that [DocStringInheritor.__new__] returns has an empty
    [__abstractmethods__], whatever its body marks abstract, and can be
    instantiated. *)
Lemma DocStringInheritor_new_instantiate name base clsdict cls :
  Meta.DocStringInheritor_new name base clsdict = Returns cls →
  Meta.c_abstractmethods cls = ∅ ∧ Meta.instantiate cls = Returns ∅.
Proof.
  unfold Meta.DocStringInheritor_new.
  destruct (Meta.inherit_attr_docs base (Meta.ns_attrs clsdict)); [|done].
  by intros [= <-].
Qed.

(** Had the metaclass been [abc.ABCMeta], the class that omits the
    abstract operations would have been refused. *)
Lemma ABCMeta_new_refuses_bare :
  Meta.instantiate Meta.Bare_class_ABCMeta = Raises TypeError.
Proof. by vm_compute. Qed.

(** C2, on the code: [class Bare(IFuzzable): pass] implements none of the
    operations marked abstract, each of them resolves on it to the marked
    attribute of [IFuzzable], and yet the class statement succeeds, its
    [__abstractmethods__] is empty and [Bare()] returns an instance; the
    omission shows only when the operation runs on that instance, as the
    [None] of the body in [IFuzzable]. *)
Theorem abstract_omission_not_signalled :
  ∃ Bare inst,
    Meta.Bare_class = Returns Bare ∧
    Forall (λ m, Meta.c_dict Bare !! m = None ∧
                 Meta.isabstract <$> Meta.class_getattr Bare m = Some true)
           Meta.abstract_marked ∧
    Meta.c_abstractmethods Bare = ∅ ∧
    Meta.instantiate Bare = Returns inst ∧
    let w := store_of_instance inst in
    mutations example_classes 1%nat w = (Returns PyNone, w) ∧
    original_value example_classes 1%nat w = (Returns PyNone, w) ∧
    num_mutations example_classes 1%nat w = (Returns PyNone, w) ∧
    render example_classes 1%nat w = (Returns PyNone, w).
Proof.
  eexists _, _. split; [by vm_compute|].
  split.
  { unfold Meta.abstract_marked. repeat constructor; by vm_compute. }
  split; [reflexivity|]. split; [reflexivity|].
  cbv zeta. by split_and!.
Qed.

(** * Further properties of the code *)

(** ** [name] and the counter *)

Lemma run_ops_cons classes o ops w :
  run_ops classes (o :: ops) w = run_ops classes ops (snd (run_op classes o w)).
Proof. reflexivity. Qed.

(** What a read of [name] leaves alone. *)
Lemma name_frame classes self w :
  mutation_objs (snd (name classes self w)) = mutation_objs w ∧
  (∀ l, l ≠ self → objs (snd (name classes self w)) !! l = objs w !! l) ∧
  (∀ o, objs w !! self = Some o →
     ∃ o', objs (snd (name classes self w)) !! self = Some o' ∧
           o_class o' = o_class o ∧
           ∀ a, a ≠ "_name" → o_dict o' !! a = o_dict o !! a) ∧
  name_counter (snd (name classes self w)) =
    name_counter w + (if unnamed w self then 1 else 0).
Proof.
  rewrite name_unfold. unfold unnamed.
  destruct (objs w !! self) as [o|] eqn:Ho.
  2:{ split_and!; try done. simpl. lia. }
  destruct (o_dict o !! "_name") as [x|] eqn:Hx.
  2:{ split_and!; simpl; [done|done|by intros ? [= <-]; eauto|lia]. }
  destruct x; simpl;
    try (split_and!; simpl; [done|done|by intros ? [= <-]; eauto|lia]).
  split_and!; [done| | |done].
  - intros l Hl. by rewrite lookup_insert_ne.
  - intros ? [= <-]. eexists. rewrite lookup_insert_eq.
    split_and!; [done|done|]. intros a Ha. simpl. by rewrite lookup_insert_ne.
Qed.

(** X1: a read of [name] changes nothing but the element's own [_name]
    and the counter: the [Mutation] objects, every other element, and the
    class and the other attributes of the element itself stay as they
    were, and the counter moves by one when the element was built without
    a name and not at all otherwise. *)
Theorem name_changes_only_own_name classes self w :
  let w' := snd (name classes self w) in
  mutation_objs w' = mutation_objs w ∧
  (∀ l, l ≠ self → objs w' !! l = objs w !! l) ∧
  (∀ o, objs w !! self = Some o →
     ∃ o', objs w' !! self = Some o' ∧ o_class o' = o_class o ∧
           ∀ a, a ≠ "_name" → o_dict o' !! a = o_dict o !! a) ∧
  name_counter w' = name_counter w + (if unnamed w self then 1 else 0).
Proof. apply name_frame. Qed.

Lemma unnamed_after_name classes self w l :
  l ≠ self → unnamed (snd (name classes self w)) l = unnamed w l.
Proof.
  intros Hl. unfold unnamed.
  destruct (name_frame classes self w) as (_ & Hother & _).
  by rewrite (Hother l Hl).
Qed.

(** X2: after the names of a list of different elements were read, the
    counter has moved by the number of those that were built without a
    name: elements with a name of their own, elements without the
    attribute [_name] and locations that hold no element draw nothing. *)
Theorem name_counter_counts_unnamed classes ls w :
  NoDup ls →
  name_counter (run_ops classes (Op_name <$> ls) w) =
    name_counter w + Z.of_nat (length (List.filter (unnamed w) ls)).
Proof.
  intros Hnd. revert w. induction Hnd as [|l ls Hl Hnd IH]; intros w.
  { unfold run_ops. simpl. lia. }
  rewrite fmap_cons, run_ops_cons. simpl run_op. rewrite IH.
  destruct (name_frame classes l w) as (_ & _ & _ & ->).
  assert (Hext : List.filter (unnamed (snd (name classes l w))) ls =
                 List.filter (unnamed w) ls).
  { apply List.filter_ext_in. intros x Hx. apply unnamed_after_name.
    intros ->. by apply Hl, list_elem_of_In. }
  rewrite Hext. simpl. destruct (unnamed w l); simpl; lia.
Qed.

Lemma name_counter_counts_unnamed_witness :
  name_counter
    (run_ops example_classes (Op_name <$> [2%nat; 5%nat; 1%nat]) w_unnamed) = 2.
Proof.
  etrans.
  - apply (name_counter_counts_unnamed example_classes [2%nat; 5%nat; 1%nat]
             w_unnamed).
    by apply (bool_decide_unpack _).
  - reflexivity.
Defined.

(** X3: when [name] returns, what it returns is never [None], and it is
    what the attribute [_name] holds from then on. *)
Theorem name_returns_stored_name classes self w v w' :
  name classes self w = (Returns v, w') →
  v ≠ PyNone ∧ getattr self "_name" w' = (Returns v, w').
Proof.
  intros H. destruct (name_returns_named classes self w v w' H)
    as (o & Ho & Hv & Hne).
  split; [done|]. unfold getattr. by rewrite Ho, Hv.
Qed.

Lemma name_returns_stored_name_witness :
  PyStr "Bare1" ≠ PyNone ∧
  getattr 1%nat "_name" (snd (name example_classes 1%nat w_unnamed)) =
    (Returns (PyStr "Bare1"), snd (name example_classes 1%nat w_unnamed)).
Proof.
  apply (name_returns_stored_name example_classes 1%nat w_unnamed).
  reflexivity.
Defined.

(** ** [qualified_name] and [context_path] *)

Lemma app_ne_self (s t : string) : t ≠ "" → s +:+ t ≠ s.
Proof.
  intros Ht. induction s as [|a s IH]; simpl; [done|].
  intros [= H]. by apply IH.
Qed.

(** Assigning an attribute other than [_name] does not change what
    [name] returns. *)
Lemma name_result_setattr classes self l a v w :
  a ≠ "_name" →
  fst (name classes self (snd (setattr l a v w))) = fst (name classes self w).
Proof.
  intros Ha. rewrite !name_unfold. unfold setattr.
  destruct (objs w !! l) as [o|] eqn:Ho; [|done]. simpl.
  destruct (decide (l = self)) as [->|Hl].
  - rewrite lookup_insert_eq, Ho. simpl. rewrite lookup_insert_ne by done.
    destruct (o_dict o !! "_name") as [x|]; [|done]. by destruct x.
  - rewrite lookup_insert_ne by done.
    destruct (objs w !! self) as [o'|]; [|done].
    destruct (o_dict o' !! "_name") as [x|]; [|done]. by destruct x.
Qed.

(** X4: [set_context_path] takes any object, and [qualified_name] is
    computed from the context path of the moment.  After the path was set
    to a non-empty string, the qualified name of an element with a
    non-empty name is path, dot, name; after it was set to a false object
    ([None], [""], [0], [False], [b""]) it is the bare name; after it was
    set to a true object that is not a string, [qualified_name] raises
    [TypeError]. *)
Theorem qualified_name_after_set_context_path classes self w o n v :
  objs w !! self = Some o →
  fst (name classes self w) = Returns (PyStr n) →
  let q := fst (qualified_name classes self (snd (set_context_path self v w))) in
  (∀ cp, v = PyStr cp → cp ≠ "" → n ≠ "" →
     q = Returns (PyStr (cp +:+ "." +:+ n))) ∧
  (truthy v = false → q = Returns (PyStr n)) ∧
  ((∀ s, v ≠ PyStr s) → truthy v = true → q = Raises TypeError).
Proof.
  intros Ho Hn q.
  assert (Hq : q = str_join "." (List.filter truthy [v; PyStr n])).
  { subst q. unfold set_context_path.
    pose proof (name_result_setattr classes self self "_context_path" v w
                  ltac:(done)) as Hn'.
    rewrite Hn in Hn'. revert Hn'. unfold setattr. rewrite Ho. simpl.
    intros Hn'.
    erewrite qualified_name_result; [|by simpl; rewrite lookup_insert_eq|done].
    simpl. by rewrite lookup_insert_eq. }
  rewrite Hq. split_and!.
  - intros cp -> Hcp Hne. destruct cp; [done|]. by destruct n.
  - intros Hv. simpl. rewrite Hv. by destruct n.
  - intros Hstr Hv. simpl. rewrite Hv.
    destruct v; try done. by destruct (Hstr s).
Qed.

Lemma qualified_name_after_set_context_path_witness :
  fst (qualified_name example_classes 1%nat
         (snd (set_context_path 1%nat (PyStr "body") w_header))) =
    Returns (PyStr "body.len") ∧
  fst (qualified_name example_classes 1%nat
         (snd (set_context_path 1%nat (PyInt 7) w_header))) = Raises TypeError.
Proof.
  split.
  - refine (proj1 (qualified_name_after_set_context_path example_classes 1%nat
              w_header _ "len" (PyStr "body") eq_refl eq_refl) "body" eq_refl _ _);
      discriminate.
  - refine (proj2 (proj2 (qualified_name_after_set_context_path example_classes
              1%nat w_header _ "len" (PyInt 7) eq_refl eq_refl)) _ eq_refl);
      discriminate.
Defined.

(** The join of a non-empty path and a name. *)
Lemma str_join_path_name cp n :
  cp ≠ "" →
  str_join "." (List.filter truthy [PyStr cp; PyStr n]) =
    Returns (PyStr (if decide (n = "") then cp else cp +:+ "." +:+ n)).
Proof. intros Hcp. destruct cp; [done|]. by destruct n. Qed.

(** X5: two elements under the same context path (unset, [None] or a
    string) whose names are different strings have different qualified
    names, and both qualified names are strings. *)
Theorem sibling_qualified_names_distinct classes l1 l2 w o1 o2 n1 n2 c :
  objs w !! l1 = Some o1 → objs w !! l2 = Some o2 →
  default PyNone (o_dict o1 !! "_context_path") = c →
  default PyNone (o_dict o2 !! "_context_path") = c →
  c = PyNone ∨ (∃ cp, c = PyStr cp) →
  fst (name classes l1 w) = Returns (PyStr n1) →
  fst (name classes l2 w) = Returns (PyStr n2) →
  n1 ≠ n2 →
  ∃ q1 q2,
    fst (qualified_name classes l1 w) = Returns (PyStr q1) ∧
    fst (qualified_name classes l2 w) = Returns (PyStr q2) ∧
    q1 ≠ q2.
Proof.
  intros Ho1 Ho2 Hc1 Hc2 Hc Hn1 Hn2 Hne.
  rewrite (qualified_name_result classes l1 w o1 _ Ho1 Hn1), Hc1.
  rewrite (qualified_name_result classes l2 w o2 _ Ho2 Hn2), Hc2.
  destruct Hc as [-> | [cp ->]].
  - exists n1, n2. split_and!; [by destruct n1|by destruct n2|done].
  - destruct (decide (cp = "")) as [->|Hcp].
    { exists n1, n2. split_and!; [by destruct n1|by destruct n2|done]. }
    rewrite !str_join_path_name by done.
    eexists _, _. split_and!; [done|done|].
    destruct (decide (n1 = "")) as [->|H1], (decide (n2 = "")) as [->|H2];
      [done| | |].
    + intros H. symmetry in H. revert H. by apply app_ne_self.
    + by apply app_ne_self.
    + intros H%(inj (String.app cp))%(inj (String.app ".")). done.
Qed.

Lemma sibling_qualified_names_distinct_witness :
  ∃ q1 q2,
    fst (qualified_name example_classes 1%nat w_fuzzable) = Returns (PyStr q1) ∧
    fst (qualified_name example_classes 2%nat w_fuzzable) = Returns (PyStr q2) ∧
    q1 ≠ q2.
Proof.
  apply (sibling_qualified_names_distinct example_classes 1%nat 2%nat
           w_fuzzable _ _ "Bare1" "len" PyNone eq_refl eq_refl eq_refl eq_refl
           (or_introl eq_refl) eq_refl eq_refl).
  discriminate.
Defined.

(** X6: on an element, [context_path] reads back what [set_context_path]
    stored; setting the path twice leaves the store that the second
    assignment alone leaves; and the assignment does not change what
    [name] returns. *)
Theorem set_context_path_round_trip classes self w o x y :
  objs w !! self = Some o →
  fst (context_path self (snd (set_context_path self x w))) = Returns x ∧
  snd (set_context_path self y (snd (set_context_path self x w))) =
    snd (set_context_path self y w) ∧
  fst (name classes self (snd (set_context_path self x w))) =
    fst (name classes self w).
Proof.
  intros Ho. split_and!.
  - unfold context_path, set_context_path, setattr, getattr. rewrite Ho. simpl.
    rewrite lookup_insert_eq. simpl. by rewrite lookup_insert_eq.
  - unfold set_context_path, setattr. rewrite Ho. simpl.
    rewrite lookup_insert_eq. simpl.
    by rewrite !insert_insert_eq.
  - by apply name_result_setattr.
Qed.

Lemma set_context_path_round_trip_witness :
  fst (context_path 1%nat (snd (set_context_path 1%nat (PyStr "body") w_header)))
    = Returns (PyStr "body").
Proof.
  apply (proj1 (set_context_path_round_trip example_classes 1%nat w_header _
                  (PyStr "body") PyNone eq_refl)).
Defined.

(** X7: on an element whose [_name] was never assigned, [qualified_name]
    raises [AttributeError] for [_name], and by then it has stored [None]
    as the context path if there was none: [context_path] reads afterwards
    without an error. *)
Theorem qualified_name_without_name classes self w o :
  objs w !! self = Some o →
  o_dict o !! "_name" = None →
  let w' := snd (qualified_name classes self w) in
  fst (qualified_name classes self w) = Raises (AttributeError "_name") ∧
  context_path self w' =
    (Returns (default PyNone (o_dict o !! "_context_path")), w').
Proof.
  intros Ho Hn. simpl.
  destruct (with_context_path_lookup self o w Ho) as (o2 & Ho2 & Hcp2).
  assert (Hn2 : o_dict o2 !! "_name" = None).
  { revert Ho2. unfold with_context_path.
    destruct (o_dict o !! "_context_path"); simpl.
    - rewrite Ho. by intros [= <-].
    - rewrite lookup_insert_eq. intros [= <-]. simpl.
      by rewrite lookup_insert_ne. }
  rewrite qualified_name_unfold, Ho, name_unfold, Ho2, Hn2. simpl.
  split; [done|]. unfold context_path, getattr. by rewrite Ho2, Hcp2.
Qed.

Lemma qualified_name_without_name_witness :
  fst (qualified_name example_classes 1%nat (store_of_instance ∅)) =
    Raises (AttributeError "_name") ∧
  context_path 1%nat (snd (qualified_name example_classes 1%nat (store_of_instance ∅)))
    = (Returns PyNone,
       snd (qualified_name example_classes 1%nat (store_of_instance ∅))).
Proof.
  exact (qualified_name_without_name example_classes 1%nat
           (store_of_instance ∅) (Obj 0 ∅) eq_refl eq_refl).
Defined.

(** ** What the operations leave alone *)

Global Instance attr_kept_refl a : Reflexive (attr_kept a).
Proof. intros w l o Ho. by exists o. Qed.

Global Instance attr_kept_trans a : Transitive (attr_kept a).
Proof.
  intros w1 w2 w3 H1 H2 l o Ho.
  destruct (H1 l o Ho) as (o2 & Ho2 & Hc2 & Ha2).
  destruct (H2 l o2 Ho2) as (o3 & Ho3 & Hc3 & Ha3).
  exists o3. split_and!; congruence.
Qed.

Lemma name_attr_kept classes a self :
  a ≠ "_name" → preserves (attr_kept a) (name classes self).
Proof.
  intros Ha w l o Ho.
  destruct (name_frame classes self w) as (_ & Hother & Hself & _).
  destruct (decide (l = self)) as [->|Hl].
  - destruct (Hself o Ho) as (o' & Ho' & Hc & Hattrs).
    exists o'. split_and!; auto.
  - exists o. by rewrite Hother.
Qed.

Lemma setattr_attr_kept a self b v :
  b ≠ a → preserves (attr_kept a) (setattr self b v).
Proof.
  intros Hb w l o Ho. unfold setattr.
  destruct (objs w !! self) as [o0|] eqn:Ho0; [|by exists o].
  simpl. destruct (decide (l = self)) as [->|Hl].
  - eexists. rewrite lookup_insert_eq. split_and!; [done|simpl; congruence|].
    simpl. rewrite lookup_insert_ne by done. congruence.
  - exists o. by rewrite lookup_insert_ne.
Qed.

Lemma qualified_name_attr_kept classes a self :
  a ≠ "_name" → a ≠ "_context_path" →
  preserves (attr_kept a) (qualified_name classes self).
Proof.
  intros Ha Hb. unfold qualified_name. preserves_seq;
    eauto using name_attr_kept, setattr_attr_kept
      with preserves typeclass_instances.
Qed.

Lemma run_ops_attr_kept classes a ops w :
  a ≠ "_name" → a ≠ "_context_path" →
  overrides_preserve classes (attr_kept a) →
  attr_kept a w (run_ops classes ops w).
Proof.
  intros Ha Hb Hov. revert w. unfold run_ops.
  induction ops as [|o ops IH]; intros w; simpl; [reflexivity|].
  etrans; [|apply IH].
  destruct o; simpl; unfold fuzzable, context_path, set_context_path.
  - by apply preserves_getattr.
  - by apply name_attr_kept.
  - by apply qualified_name_attr_kept.
  - by apply preserves_getattr.
  - apply preserves_bind; [by apply setattr_attr_kept|intros _].
    by apply preserves_ret.
  - apply render_mutated_preserves; [apply _..|done|].
    intros l. by apply qualified_name_attr_kept.
  - by apply preserves_invoke.
Qed.

(** X8: no operation of the interface removes an element, changes its
    class or touches its [_fuzzable]: whatever callers ran on whatever
    elements, [fuzzable] gives what it gave before, provided the bodies
    that classes override methods with leave [_fuzzable] alone. *)
Theorem fuzzable_stable classes self w o ops :
  overrides_preserve classes (attr_kept "_fuzzable") →
  objs w !! self = Some o →
  fst (fuzzable self (run_ops classes ops w)) = fst (fuzzable self w) ∧
  ∃ o', objs (run_ops classes ops w) !! self = Some o' ∧
        o_class o' = o_class o.
Proof.
  intros Hov Ho.
  destruct (run_ops_attr_kept classes "_fuzzable" ops w
              ltac:(done) ltac:(done) Hov self o Ho) as (o' & Ho' & Hc & Ha).
  split; [|by exists o'].
  unfold fuzzable, getattr. rewrite Ho, Ho', Ha.
  by destruct (o_dict o !! "_fuzzable").
Qed.

Lemma fuzzable_stable_witness :
  fst (fuzzable 1%nat (run_ops example_classes example_ops w_fuzzable)) =
    Returns (PyBool true).
Proof.
  refine (eq_trans
    (proj1 (fuzzable_stable example_classes 1%nat w_fuzzable _ example_ops
              (example_overrides_preserve (attr_kept "_fuzzable")) eq_refl))
    eq_refl).
Defined.

(** ** [render_mutated] on a class that inherits what it calls *)

(** A second read of [qualified_name] repeats the first, an exception
    included, and changes nothing. *)
Lemma qualified_name_idem classes self w r w' :
  qualified_name classes self w = (r, w') →
  qualified_name classes self w' = (r, w').
Proof.
  intros H. pose proof H as H0. revert H.
  rewrite qualified_name_unfold.
  destruct (objs w !! self) as [o|] eqn:Ho.
  2:{ intros [= <- <-]. rewrite qualified_name_unfold. by rewrite Ho. }
  destruct (with_context_path_lookup self o w Ho) as (o2 & Ho2 & Hcp2).
  destruct (name classes self (with_context_path self o w)) as [[n|e] w1] eqn:Hn.
  - intros [= <- <-].
    destruct (name_returns_named _ _ _ _ _ Hn) as (o1 & Ho1 & Hn1 & Hne).
    destruct (name_keeps_attr classes self "_context_path" _ _ _ o2
                ltac:(done) Hn Ho2) as (o3 & Ho3 & Hcp3).
    apply qualified_name_settled. exists o1. split_and!; try done. congruence.
  - intros [= <- <-]. revert Hn. rewrite name_unfold, Ho2.
    destruct (o_dict o2 !! "_name") as [x|] eqn:Hx; [by destruct x|].
    intros [= <- <-].
    rewrite qualified_name_unfold, Ho2. unfold with_context_path at 1.
    rewrite Hcp2. by rewrite name_unfold, Ho2, Hx.
Qed.

(** The exceptions of [qualified_name]. *)
Lemma qualified_name_raises classes self w e :
  fst (qualified_name classes self w) = Raises e →
  e = NoSuchObject ∨ e = AttributeError "_name" ∨ e = TypeError.
Proof.
  rewrite qualified_name_unfold.
  destruct (objs w !! self) as [o|] eqn:Ho; [|intros [= <-]; auto].
  destruct (with_context_path_lookup self o w Ho) as (o2 & Ho2 & _).
  rewrite name_unfold, Ho2.
  destruct (o_dict o2 !! "_name") as [x|]; [|intros [= <-]; auto].
  destruct x; simpl; unfold str_join;
    match goal with |- context [all_str ?l] => destruct (all_str l) end;
    simpl; intros [= <-]; auto.
Qed.

(** [render_mutated] when the class of the element inherits
    [get_child_data], [encode] and [original_value]. *)
Lemma render_mutated_inherited classes self m w :
  (∀ o, objs w !! self = Some o → inherits_pipeline (classes (o_class o))) →
  render_mutated classes self m w =
    match qualified_name classes self w with
    | (Returns qn, w1) =>
        match mutation_objs w1 !! m with
        | Some d =>
            (Returns match qn with
                     | PyStr s => default PyNone (d !! s)
                     | _ => PyNone
                     end, w1)
        | None => (Raises NoSuchObject, w1)
        end
    | (Raises e, w1) => (Raises e, w1)
    end.
Proof.
  intros Hinh. destruct (objs w !! self) as [o|] eqn:Ho.
  2:{ rewrite qualified_name_unfold, Ho.
      unfold render_mutated, get_child_data, invoke, class_of.
      unfold bind at 1. unfold bind at 1. simpl. by rewrite Ho. }
  destruct (Hinh o eq_refl) as (Hg & He & Hov).
  pose proof (get_child_data_inherited classes self m w o Ho Hg) as Hcd.
  destruct (qualified_name classes self w) as [[qn|e] w1] eqn:Hq.
  2:{ unfold render_mutated. unfold bind at 1. rewrite Hcd.
      unfold bind at 1. by rewrite Hq. }
  destruct (qualified_name_returns_str _ _ _ _ _ Hq) as [s ->].
  destruct (qualified_name_attr_kept classes "_fuzzable" self
              ltac:(done) ltac:(done) w self o Ho) as (o1 & Ho1 & Hc1 & _).
  rewrite Hq in Ho1. simpl in Ho1.
  destruct (mutation_objs w1 !! m) as [d|] eqn:Hd.
  - rewrite (render_mutated_unfold classes self m w PyNone w s w1 d Hcd Hq Hd).
    assert (Henc : ∀ v, encode classes self v PyNone w1 = (Returns v, w1)).
    { intros v. unfold encode.
      rewrite (invoke_inherited classes (Call_encode self v PyNone) w1 o1 Ho1);
        [done|]. simpl. by rewrite Hc1, He. }
    destruct (d !! s); simpl; [apply Henc|].
    unfold bind, original_value.
    rewrite (invoke_inherited classes (Call_original_value self) w1 o1 Ho1);
      [apply Henc|]. simpl. by rewrite Hc1, Hov.
  - unfold render_mutated. unfold bind at 1. rewrite Hcd.
    unfold bind at 1. rewrite Hq. unfold bind at 1, get_mutations.
    by rewrite Hd.
Qed.

(** X9: with the [encode], [get_child_data] and [original_value] of
    [IFuzzable], [render_mutated] returns the very object the mapping
    gives the element's qualified name, and [None] when the mapping has no
    entry for it; the store is the one the read of [qualified_name]
    leaves. *)
Theorem render_mutated_default_pipeline classes self m w o qn w' d :
  objs w !! self = Some o →
  inherits_pipeline (classes (o_class o)) →
  qualified_name classes self w = (Returns (PyStr qn), w') →
  mutation_objs w !! m = Some d →
  render_mutated classes self m w = (Returns (default PyNone (d !! qn)), w').
Proof.
  intros Ho Hinh Hq Hd.
  rewrite render_mutated_inherited; [|intros ? ?; by simplify_eq].
  rewrite Hq.
  pose proof (qualified_name_mutation_kept classes m self w) as K.
  unfold mutation_kept in K. rewrite Hq in K. simpl in K.
  by rewrite K, Hd.
Qed.

Lemma render_mutated_default_pipeline_witness :
  render_mutated example_classes 1%nat 7%nat w_unnamed =
    (Returns (PyInt 9999), snd (qualified_name example_classes 1%nat w_unnamed)).
Proof.
  exact (render_mutated_default_pipeline example_classes 1%nat 7%nat w_unnamed
           (Obj 0 {[ "_name" := PyNone ]}) "Bare1" _
           {[ "Bare1" := PyInt 9999 ]}
           eq_refl (conj eq_refl (conj eq_refl eq_refl)) eq_refl eq_refl).
Defined.

(** X10: with the [encode], [get_child_data] and [original_value] of
    [IFuzzable], the only exceptions of [render_mutated] on an element
    and a [Mutation] are [AttributeError] for a [_name] that was never
    assigned and the [TypeError] of joining a name or context path that is
    not a string; the lookup in the mapping never raises [KeyError]. *)
Theorem render_mutated_exceptions classes self m w o d e :
  objs w !! self = Some o →
  inherits_pipeline (classes (o_class o)) →
  mutation_objs w !! m = Some d →
  fst (render_mutated classes self m w) = Raises e →
  e = AttributeError "_name" ∨ e = TypeError.
Proof.
  intros Ho Hinh Hd.
  rewrite render_mutated_inherited; [|intros ? ?; by simplify_eq].
  pose proof (qualified_name_mutation_kept classes m self w) as K.
  pose proof (qualified_name_raises classes self w) as Hr.
  unfold mutation_kept in K.
  destruct (qualified_name classes self w) as [[qn|e'] w1] eqn:Hq;
    simpl in *.
  - by rewrite K, Hd.
  - intros [= <-]. destruct (Hr e' eq_refl) as [->|?]; [|done].
    revert Hq. rewrite qualified_name_unfold, Ho.
    destruct (with_context_path_lookup self o w Ho) as (o2 & Ho2 & _).
    rewrite name_unfold, Ho2.
    destruct (o_dict o2 !! "_name") as [x|]; [|by intros [= <-]].
    destruct x; simpl; unfold str_join;
      match goal with |- context [all_str ?l] => destruct (all_str l) end;
      by intros [= <-].
Qed.

Lemma render_mutated_exceptions_witness :
  AttributeError "_name" = AttributeError "_name" ∨
  AttributeError "_name" = TypeError.
Proof.
  exact (render_mutated_exceptions example_classes 1%nat 7%nat w_nameless
           _ ∅ (AttributeError "_name")
           eq_refl (conj eq_refl (conj eq_refl eq_refl)) eq_refl eq_refl).
Defined.

(** X11: with the [encode], [get_child_data] and [original_value] of
    [IFuzzable], rendering twice with the same [Mutation] gives the same
    outcome twice, an exception included, and the second call changes
    nothing: the name and the context path are settled by the first. *)
Theorem render_mutated_twice classes self m w :
  (∀ o, objs w !! self = Some o → inherits_pipeline (classes (o_class o))) →
  render_mutated classes self m (snd (render_mutated classes self m w)) =
  render_mutated classes self m w.
Proof.
  intros Hinh. rewrite (render_mutated_inherited classes self m w Hinh).
  destruct (qualified_name classes self w) as [r w1] eqn:Hq.
  assert (Hw1 : ∀ o', objs w1 !! self = Some o' →
                      inherits_pipeline (classes (o_class o'))).
  { intros o' Ho'. destruct (objs w !! self) as [o|] eqn:Ho.
    - destruct (qualified_name_attr_kept classes "_fuzzable" self
                  ltac:(done) ltac:(done) w self o Ho) as (o1 & Ho1 & Hc1 & _).
      rewrite Hq in Ho1. simpl in Ho1. simplify_eq. rewrite Hc1. by apply Hinh.
    - revert Hq. rewrite qualified_name_unfold, Ho. intros [= <- <-].
      congruence. }
  assert (Hsnd : snd (match r with
                      | Returns qn =>
                          match mutation_objs w1 !! m with
                          | Some d =>
                              (Returns match qn with
                                       | PyStr s => default PyNone (d !! s)
                                       | _ => PyNone
                                       end, w1)
                          | None => (Raises NoSuchObject, w1)
                          end
                      | Raises e => (Raises e, w1)
                      end) = w1).
  { destruct r; [|done]. by destruct (mutation_objs w1 !! m). }
  rewrite Hsnd, (render_mutated_inherited classes self m w1 Hw1).
  by rewrite (qualified_name_idem classes self w r w1 Hq).
Qed.

Lemma render_mutated_twice_witness :
  render_mutated example_classes 1%nat 7%nat
    (snd (render_mutated example_classes 1%nat 7%nat w_unnamed)) =
  render_mutated example_classes 1%nat 7%nat w_unnamed.
Proof.
  apply (render_mutated_twice example_classes 1%nat 7%nat w_unnamed).
  intros o _. destruct (o_class o); repeat split.
Defined.

(** ** [DocStringInheritor] *)








(** X14: a class body with a docstring keeps it; a class body without
    one gets the docstring of its base when the base has one; and in
    either case the class is documented, so documentation passes down
    every line of descent that starts at a documented class. *)
Theorem DocStringInheritor_new_class_doc name base clsdict cls :
  Meta.DocStringInheritor_new name base clsdict = Returns cls →
  (Meta.doc_truthy (Meta.ns_doc clsdict) = true →
     Meta.c_doc cls = Meta.ns_doc clsdict) ∧
  (Meta.doc_truthy (Meta.ns_doc clsdict) = false →
   Meta.doc_truthy (Meta.c_doc base) = true →
     Meta.c_doc cls = Meta.c_doc base) ∧
  (Meta.doc_truthy (Meta.ns_doc clsdict) = true ∨
   Meta.doc_truthy (Meta.c_doc base) = true →
     Meta.doc_truthy (Meta.c_doc cls) = true).
Proof.
  unfold Meta.DocStringInheritor_new.
  destruct (Meta.inherit_attr_docs base (Meta.ns_attrs clsdict)); [|done].
  intros [= <-]. simpl.
  assert (Hbase : Meta.doc_truthy (Meta.c_doc base) = true →
                  Meta.first_doc (Meta.c_doc <$> Meta.mro base) =
                    Meta.c_doc base).
  { intros Hb. destruct base as [n b d cd ab]. simpl in *.
    unfold Meta.first_doc. simpl. rewrite Hb. simpl.
    destruct d; [done|discriminate]. }
  split_and!.
  - by intros ->.
  - intros -> Hb. rewrite (Hbase Hb).
    destruct (Meta.c_doc base); [done|discriminate].
  - intros [H|Hb].
    + by rewrite H.
    + destruct (Meta.doc_truthy (Meta.ns_doc clsdict)) eqn:Hd; [done|].
      rewrite (Hbase Hb). by destruct (Meta.c_doc base).
Qed.

Lemma DocStringInheritor_new_class_doc_witness :
  ∃ cls,
    Meta.DocStringInheritor_new "Bare" Meta.object_class
      (Meta.MkNamespace None ∅) = Returns cls ∧
    Meta.c_doc cls = Some "The most base type".
Proof.
  eexists. split; [reflexivity|].
  exact (proj1 (proj2 (DocStringInheritor_new_class_doc "Bare"
           Meta.object_class (Meta.MkNamespace None ∅) _ eq_refl))
           eq_refl eq_refl).
Defined.

(** X15: an attribute declared with [abc.abstractproperty] and without a
    docstring, whose getter is not itself decorated, loses its abstract
    mark when the base has a documented attribute of that name: the loop
    builds it again as a plain [property] with the inherited docstring. *)
Theorem inherit_attr_doc_drops_abstractproperty base attr a b :
  Meta.a_kind a = Meta.AbstractProperty →
  Meta.a_fn_abstract a = false →
  Meta.doc_truthy (Meta.a_doc a) = false →
  Meta.class_getattr base attr = Some b →
  Meta.doc_truthy (Meta.a_doc b) = true →
  Meta.isabstract a = true ∧
  ∃ a', Meta.inherit_attr_doc base attr a = Returns a' ∧
        Meta.a_doc a' = Meta.a_doc b ∧
        Meta.a_kind a' = Meta.Property ∧
        Meta.isabstract a' = false.
Proof.
  intros Hk Hf Hd Hb Hbd.
  split; [unfold Meta.isabstract; by rewrite Hk|].
  unfold Meta.inherit_attr_doc. rewrite Hd.
  assert (Hfirst : Meta.first_doc
            (omap (λ mro_cls, Meta.a_doc <$> Meta.class_getattr mro_cls attr)
                  (Meta.mro base)) = Meta.a_doc b).
  { destruct base as [n bs d cd ab]. simpl in *.
    rewrite Hb. simpl. unfold Meta.first_doc. simpl. rewrite Hbd. simpl.
    destruct (Meta.a_doc b); [done|discriminate]. }
  rewrite Hfirst. destruct (Meta.a_doc b) as [doc|] eqn:Hdoc; [|discriminate].
  unfold Meta.set_doc, Meta.is_property. rewrite Hk.
  eexists. split; [done|]. simpl. unfold Meta.isabstract. simpl.
  by rewrite Hf.
Qed.

Lemma inherit_attr_doc_drops_abstractproperty_witness :
  ∃ a', Meta.inherit_attr_doc Meta.object_class "__repr__"
          (Meta.MkAttr Meta.AbstractProperty None false) = Returns a' ∧
        Meta.isabstract a' = false.
Proof.
  destruct (inherit_attr_doc_drops_abstractproperty Meta.object_class "__repr__"
              (Meta.MkAttr Meta.AbstractProperty None false)
              (Meta.MkAttr Meta.Function (Some "Return repr(self).") false)
              eq_refl eq_refl eq_refl eq_refl eq_refl)
    as (_ & a' & Ha' & _ & _ & Habs).
  by exists a'.
Defined.

(** ** Generated names *)

Lemma pretty_N_go_nonempty (x : N) s : s ≠ "" → pretty_N_go x s ≠ "".
Proof.
  revert s. induction (N.lt_wf_0 x) as [x _ IH]; intros s Hs.
  assert (x = 0 ∨ 0 < x)%N as [->|Hx] by lia.
  - by rewrite pretty_N_go_0.
  - rewrite pretty_N_go_step by done. apply IH; [|done].
    by apply N.div_lt.
Qed.

Lemma pretty_N_nonempty (x : N) : pretty x ≠ "".
Proof.
  unfold pretty, pretty_N. case_decide as Hx; [done|].
  rewrite pretty_N_go_step by lia. by apply pretty_N_go_nonempty.
Qed.

Lemma pretty_Z_nonempty (z : Z) : pretty z ≠ "".
Proof.
  destruct z as [|p|p]; [done|apply pretty_N_nonempty|done].
Qed.

Lemma app_nonempty_r (s t : string) : t ≠ "" → s +:+ t ≠ "".
Proof. intros Ht. destruct s; [done|discriminate]. Qed.

(** X16: a generated name is never the empty string, so an element built
    without a name that is attached under a non-empty path has the
    qualified name path, dot, class name, counter after one increment;
    the case of the empty name does not arise for it. *)
Theorem auto_named_qualified_name classes self w o cp :
  objs w !! self = Some o →
  o_dict o !! "_name" = Some PyNone →
  o_dict o !! "_context_path" = Some (PyStr cp) →
  cp ≠ "" →
  fst (qualified_name classes self w) =
    Returns (PyStr (cp +:+ "." +:+ cls_name (classes (o_class o)) +:+
                    pretty (name_counter w + 1))).
Proof.
  intros Ho Hn Hcp Hne.
  assert (Hname : fst (name classes self w) =
            Returns (PyStr (cls_name (classes (o_class o)) +:+
                            pretty (name_counter w + 1)))).
  { by rewrite name_unfold, Ho, Hn. }
  rewrite (qualified_name_result classes self w o _ Ho Hname), Hcp.
  simpl default. rewrite str_join_path_name by done.
  case_decide as Hempty; [|done].
  by destruct (app_nonempty_r _ _ (pretty_Z_nonempty (name_counter w + 1)) Hempty).
Qed.

Lemma auto_named_qualified_name_witness :
  fst (qualified_name example_classes 1%nat
         (snd (set_context_path 1%nat (PyStr "header") w_unnamed))) =
    Returns (PyStr "header.Bare1").
Proof.
  refine (auto_named_qualified_name example_classes 1%nat
            (snd (set_context_path 1%nat (PyStr "header") w_unnamed))
            (Obj 0 {[ "_context_path" := PyStr "header"; "_name" := PyNone ]})
            "header" eq_refl eq_refl eq_refl _).
  discriminate.
Defined.
